(** * Search orchestration of the real-estate assistant front end

    A shallow embedding of [frontend/src/PropertySearch.jsx] and
    [frontend/src/AIHomeSearch.jsx]: the React state of the two components,
    the event handlers, and the asynchronous function [searchProperties],
    cut at its suspension point into the part that runs when it is called
    and the part that runs when the remote call settles. *)

From Stdlib Require Import List NArith ZArith String Ascii Bool Lia PrimFloat.
Import ListNotations.

Set Warnings "-register-all".

(** ** JavaScript values *)

Module JS.

(** A JavaScript string is a sequence of UTF-16 code units. *)
Definition jsstring := list N.

(** ASCII literals of the source text. *)
Definition lit (s : string) : jsstring :=
  map N_of_ascii (list_ascii_of_string s).

Fixpoint jsstring_eqb (a b : jsstring) : bool :=
  match a, b with
  | [], [] => true
  | x :: a', y :: b' => N.eqb x y && jsstring_eqb a' b'
  | _, _ => false
  end.

(** ECMAScript [WhiteSpace] and [LineTerminator] code points, the ones
    [String.prototype.trim] strips. *)
Definition is_whitespace (c : N) : bool :=
  ((9 <=? c) && (c <=? 13)            (* TAB LF VT FF CR *)
   || (c =? 32)                       (* SPACE *)
   || (c =? 160)                      (* NO-BREAK SPACE *)
   || (c =? 5760)                     (* U+1680 *)
   || ((8192 <=? c) && (c <=? 8202))  (* U+2000 .. U+200A *)
   || (c =? 8232) || (c =? 8233)      (* LINE / PARAGRAPH SEPARATOR *)
   || (c =? 8239) || (c =? 8287)      (* U+202F, U+205F *)
   || (c =? 12288)                    (* U+3000 *)
   || (c =? 65279))%N.                (* U+FEFF *)

Fixpoint trimStart (s : jsstring) : jsstring :=
  match s with
  | [] => []
  | c :: s' => if is_whitespace c then trimStart s' else s
  end.

Definition trimEnd (s : jsstring) : jsstring := rev (trimStart (rev s)).

Definition trim (s : jsstring) : jsstring := trimEnd (trimStart s).

(** [encodeURIComponent] throws on a lone surrogate: a high surrogate must
    be followed by a low one, and a low one must follow a high one. *)
Definition is_high_surrogate (c : N) : bool := ((55296 <=? c) && (c <=? 56319))%N.
Definition is_low_surrogate (c : N) : bool := ((56320 <=? c) && (c <=? 57343))%N.

Fixpoint isWellFormed (s : jsstring) : bool :=
  match s with
  | [] => true
  | c :: s' =>
      if is_high_surrogate c then
        match s' with
        | d :: s'' => is_low_surrogate d && isWellFormed s''
        | [] => false
        end
      else if is_low_surrogate c then false
      else isWellFormed s'
  end.

(** The values [JSON.parse] (and so [response.json()]) can produce.  An
    object is the list of its members; the first binding of a key is the
    member. *)
Inductive json : Type :=
| JNull
| JBool (b : bool)
| JNum (x : float)
| JStr (s : jsstring)
| JArr (items : list json)
| JObj (fields : list (jsstring * json)).

(** [ToBoolean]. *)
Definition truthy_string (s : jsstring) : bool :=
  match s with [] => false | _ :: _ => true end.

Definition truthy (v : json) : bool :=
  match v with
  | JNull => false
  | JBool b => b
  | JNum x => negb (PrimFloat.is_zero x || PrimFloat.is_nan x)
  | JStr s => truthy_string s
  | JArr _ => true
  | JObj _ => true
  end.

(** The result of a property read: [None] is [undefined]. *)
Definition truthy_opt (v : option json) : bool :=
  match v with None => false | Some v' => truthy v' end.

(** [v || d]. *)
Definition or_else (v : option json) (d : json) : json :=
  match v with
  | Some v' => if truthy v' then v' else d
  | None => d
  end.

Fixpoint field (k : jsstring) (fields : list (jsstring * json)) : option json :=
  match fields with
  | [] => None
  | (k', v) :: rest => if jsstring_eqb k k' then Some v else field k rest
  end.

(** Exceptions the modelled code can meet. *)
Inductive exn : Type :=
| TypeError
| SyntaxError
| URIError.

Inductive completion (A : Type) : Type :=
| Normal (a : A)
| Throw (e : exn).
Arguments Normal {A} a.
Arguments Throw {A} e.

(** [v.k] for one of the keys the source reads ([success], [properties],
    [response]): a read on [null] throws, a read on a primitive or an array
    finds nothing, a read on an object looks the key up. *)
Definition get (v : json) (k : jsstring) : completion (option json) :=
  match v with
  | JNull => Throw TypeError
  | JObj fields => Normal (field k fields)
  | JBool _ | JNum _ | JStr _ | JArr _ => Normal None
  end.

End JS.

Import JS.

(** ** AIHomeSearch.jsx *)

Module AIHomeSearch.

Record State : Type := mkState { searchQuery : jsstring }.

Definition init : State := mkState [].

Definition setSearchQuery (q : jsstring) (_ : State) : State := mkState q.

(** [handleSearch]: the query it navigates with, if any.  [Some q] stands
    for [navigate(`/search?q=${encodeURIComponent(q)}`)]. *)
Definition handleSearch (s : State) : completion (option jsstring) :=
  if truthy_string (trim (searchQuery s)) then
    if isWellFormed (searchQuery s) then Normal (Some (searchQuery s))
    else Throw URIError
  else Normal None.

(** The quick-search buttons, lines 16-21: label and query. *)
Definition quickSearches : list (jsstring * jsstring) :=
  [ (lit "3BHK homes in Victoria", lit "3BHK homes in Victoria");
    (lit "Affordable homes in New South Wales",
     lit "Affordable homes in New South Wales") ].

(** The click handler of a quick-search button, lines 61-64: the state it
    leaves and the query it navigates with. *)
Definition quickSearch (item : jsstring * jsstring) (s : State)
  : State * completion jsstring :=
  (setSearchQuery (snd item) s,
   if isWellFormed (snd item) then Normal (snd item) else Throw URIError).

End AIHomeSearch.

(** ** PropertySearch.jsx *)

Module PropertySearch.

(** The five [useState] cells of the component. *)
Record State : Type := mkState {
  searchQuery : jsstring;
  properties : json;
  loading : bool;
  error : option jsstring;      (* [None] is [null] *)
  aiResponse : json
}.

(** The body of the POST to [/api/query]. *)
Record request : Type := mkRequest {
  query : jsstring;
  top_k : Z
}.

(** The component state together with what the component has done to the
    outside: the remote calls issued (an attempt is the position of its call
    in [requests]), the attempts not settled yet, and the navigations. *)
Record World : Type := mkWorld {
  ui : State;
  requests : list request;
  inflight : list nat;
  navigations : list jsstring
}.

(** Code of the component: a state transformer that completes normally or
    throws. *)
Definition M (A : Type) : Type := World -> completion A * World.

Definition ret {A} (a : A) : M A := fun w => (Normal a, w).

Definition throw {A} (e : exn) : M A := fun w => (Throw e, w).

Definition bind {A B} (m : M A) (k : A -> M B) : M B :=
  fun w =>
    match m w with
    | (Normal a, w') => k a w'
    | (Throw e, w') => (Throw e, w')
    end.

Notation "x <- m ;; k" := (bind m (fun x => k))
  (at level 61, m at next level, right associativity).
Notation "m ;; k" := (bind m (fun _ => k))
  (at level 61, right associativity).

Definition lift {A} (c : completion A) : M A := fun w => (c, w).

(** [try { body } catch (err) { handler } finally { final }], with a
    [final] block that has no [return] of its own. *)
Definition try_catch_finally (body : M unit) (handler : exn -> M unit)
    (final : M unit) : M unit :=
  fun w =>
    let '(c, w1) :=
      match body w with
      | (Normal tt, w') => (Normal tt, w')
      | (Throw e, w') => handler e w'
      end in
    match final w1 with
    | (Normal tt, w2) => (c, w2)
    | (Throw e, w2) => (Throw e, w2)
    end.

Definition modify (f : State -> State) : M unit :=
  fun w => (Normal tt,
            mkWorld (f (ui w)) (requests w) (inflight w) (navigations w)).

Definition setSearchQuery (q : jsstring) : M unit :=
  modify (fun s => mkState q (properties s) (loading s) (error s) (aiResponse s)).

Definition setProperties (v : json) : M unit :=
  modify (fun s => mkState (searchQuery s) v (loading s) (error s) (aiResponse s)).

Definition setLoading (b : bool) : M unit :=
  modify (fun s => mkState (searchQuery s) (properties s) b (error s) (aiResponse s)).

Definition setError (e : option jsstring) : M unit :=
  modify (fun s => mkState (searchQuery s) (properties s) (loading s) e (aiResponse s)).

Definition setAiResponse (v : json) : M unit :=
  modify (fun s => mkState (searchQuery s) (properties s) (loading s) (error s) v).

(** [fetch(url, {method: 'POST', body: JSON.stringify(r)})]: the call is
    issued at once and the attempt is in flight until it settles. *)
Definition fetch (r : request) : M nat :=
  fun w =>
    let n := List.length (requests w) in
    (Normal n,
     mkWorld (ui w) (requests w ++ [r]) (inflight w ++ [n]) (navigations w)).

(** [navigate(`/search?q=${encodeURIComponent(q)}`)]; the route stays on
    this component, so its state is kept. *)
Definition navigate (q : jsstring) : M unit :=
  fun w =>
    if isWellFormed q then
      (Normal tt,
       mkWorld (ui w) (requests w) (inflight w) (navigations w ++ [q]))
    else (Throw URIError, w).

(** How the remote call of an attempt can settle: the promise of [fetch]
    rejects (connection refused, network down), [response.json()] rejects
    (the body is not JSON), or a value is decoded. *)
Inductive outcome : Type :=
| FetchRejected
| BodyUndecodable
| Decoded (data : json).

Definition msg_failed : jsstring := lit "Failed to fetch properties".
Definition msg_connect : jsstring := lit "Error connecting to the server".

(** [searchProperties], lines 21-33: what runs when it is called, up to the
    first [await]. *)
Definition searchProperties_call (q : jsstring) : M nat :=
  setLoading true ;;
  setError None ;;
  fetch (mkRequest q 5).

(** The rest of the [try] block, lines 24-41, once the call has settled. *)
Definition searchProperties_body (o : outcome) : M unit :=
  match o with
  | FetchRejected => throw TypeError
  | BodyUndecodable => throw SyntaxError
  | Decoded data =>
      success <- lift (get data (lit "success")) ;;
      if truthy_opt success then
        props <- lift (get data (lit "properties")) ;;
        setProperties (or_else props (JArr [])) ;;
        resp <- lift (get data (lit "response")) ;;
        setAiResponse (or_else resp (JStr []))
      else
        setError (Some msg_failed)
  end.

(** [searchProperties], lines 23-46, from the settled call to the end. *)
Definition searchProperties_settle (o : outcome) : M unit :=
  try_catch_finally
    (searchProperties_body o)
    (fun _ => setError (Some msg_connect))
    (setLoading false).

(** [handleSearch], lines 49-55. *)
Definition handleSearch : M unit :=
  fun w =>
    let q := searchQuery (ui w) in
    if truthy_string q then
      (searchProperties_call q ;; navigate q) w
    else (Normal tt, w).

(** The component as mounted at [/search]: [q] is [searchParams.get('q')]. *)
Definition initial (q : option jsstring) : World :=
  mkWorld
    (mkState (match q with Some s => if truthy_string s then s else [] | None => [] end)
             (JArr []) false None (JStr []))
    [] [] [].

(** The mount effect, lines 14-18. *)
Definition mountEffect : M unit :=
  fun w =>
    let q := searchQuery (ui w) in
    if truthy_string q then (searchProperties_call q ;; ret tt) w
    else (Normal tt, w).

(** The world a piece of code leaves, however it completes: updates made
    before a throw stay made. *)
Definition after {A} (m : M A) (w : World) : World := snd (m w).

(** What the component renders, lines 107-111: the loading notice, the error
    text, or the answer and the property grid.  The last branch is taken
    before any search as well as after a successful one. *)
Inductive phase : Type :=
| Loading
| Error
| Results.

Definition phase_of (s : State) : phase :=
  if loading s then Loading
  else match error s with
       | Some e => if truthy_string e then Error else Results
       | None => Results
       end.

(** *** The event loop *)

(** What can happen to a mounted component: the input changes, the form is
    submitted, the remote call of an attempt settles. *)
Inductive event : Type :=
| Change (q : jsstring)
| Submit
| Settle (n : nat) (o : outcome).

Definition is_inflight (n : nat) (w : World) : bool :=
  existsb (Nat.eqb n) (inflight w).

Definition retire (n : nat) (w : World) : World :=
  mkWorld (ui w) (requests w)
          (filter (fun m => negb (Nat.eqb n m)) (inflight w))
          (navigations w).

(** Only an attempt in flight can settle. *)
Definition step (w : World) (ev : event) : option World :=
  match ev with
  | Change q => Some (after (setSearchQuery q) w)
  | Submit => Some (after handleSearch w)
  | Settle n o =>
      if is_inflight n w
      then Some (after (searchProperties_settle o) (retire n w))
      else None
  end.

Fixpoint run (evs : list event) (w : World) : option World :=
  match evs with
  | [] => Some w
  | ev :: evs' =>
      match step w ev with
      | Some w' => run evs' w'
      | None => None
      end
  end.

Definition mount (q : option jsstring) : World := after mountEffect (initial q).

Definition reachable (w : World) : Prop :=
  exists q evs, run evs (mount q) = Some w.

(** Entering [q] in the search box and submitting the form. *)
Definition submit (q : jsstring) : list event := [Change q; Submit].

(** *** Classes of outcomes *)

(** The decoded value makes the test [data.success] pass. *)
Definition succeeds (o : outcome) : bool :=
  match o with
  | Decoded data =>
      match get data (lit "success") with
      | Normal v => truthy_opt v
      | Throw _ => false
      end
  | FetchRejected | BodyUndecodable => false
  end.

(** [data.properties || []] and [data.response || ''] of a decoded value
    other than [null]. *)
Definition records_of (data : json) : json :=
  match get data (lit "properties") with
  | Normal v => or_else v (JArr [])
  | Throw _ => JArr []
  end.

Definition answer_of (data : json) : json :=
  match get data (lit "response") with
  | Normal v => or_else v (JStr [])
  | Throw _ => JStr []
  end.

(** The record key the grid uses, line 152. *)
Definition has_identifier (r : json) : bool :=
  match r with
  | JObj fields =>
      match field (lit "property_id") fields with
      | Some JNull | None => false
      | Some _ => true
      end
  | _ => false
  end.

End PropertySearch.

Import PropertySearch.

(** ** Vocabulary of the statements *)

Arguments lit : simpl never.

Definition with_ui (w : World) (s : State) : World :=
  mkWorld s (requests w) (inflight w) (navigations w).

Definition failed (o : outcome) : bool := negb (succeeds o).

(** The message the catch clause or the else branch leaves for a failed
    outcome. *)
Definition message_of (o : outcome) : jsstring :=
  match o with
  | FetchRejected | BodyUndecodable => msg_connect
  | Decoded data =>
      match get data (lit "success") with
      | Normal _ => msg_failed
      | Throw _ => msg_connect
      end
  end.

(** A later call has been issued since attempt [n]. *)
Definition superseded (n : nat) (w : World) : Prop :=
  S n < List.length (requests w).

(** The staleness guard as the specification words it: the outcome of a
    superseded attempt changes nothing. *)
Definition only_latest_attempt_lands : Prop :=
  forall (w w' : World) (n : nat) (o : outcome),
    reachable w -> superseded n w ->
    step w (Settle n o) = Some w' -> ui w' = ui w.

(** No result is stored: the two cells are as [useState] created them. *)
Definition result_absent (s : State) : Prop :=
  properties s = JArr [] /\ aiResponse s = JStr [].

(** The phase invariant as the specification words it, read on the three
    rendered phases: a stored result only in the results phase, an error
    reason exactly in the error phase. *)
Definition phase_invariant_as_specified (s : State) : Prop :=
  (~ result_absent s -> phase_of s = Results) /\
  (error s <> None <-> phase_of s = Error).

(** What the error cell can hold, and when. *)
Definition error_discipline (s : State) : Prop :=
  (loading s = true -> error s = None) /\
  (error s = None \/ error s = Some msg_failed \/ error s = Some msg_connect).

(** The reasons as the specification words them. *)
Definition reason_request_failed : jsstring := lit "request failed".
Definition reason_connection_error : jsstring := lit "connection error".

(** A structured response: an object whose [success] member is the given
    boolean. *)
Definition response_with_success (b : bool) (data : json) : Prop :=
  exists fields, data = JObj fields /\ field (lit "success") fields = Some (JBool b).

(** The [response] member is the string [a], or is absent and [a] is empty. *)
Definition answer_text (data : json) (a : jsstring) : Prop :=
  get data (lit "response") = Normal (Some (JStr a)) \/
  (get data (lit "response") = Normal None /\ a = []).

(** The [properties] member is the list [l], or is absent and [l] is empty. *)
Definition record_list (data : json) (l : list json) : Prop :=
  get data (lit "properties") = Normal (Some (JArr l)) \/
  (get data (lit "properties") = Normal None /\ l = []).

(** No connection, or a body that is not JSON. *)
Definition transport_failure (o : outcome) : Prop :=
  o = FetchRejected \/ o = BodyUndecodable.

(** The records the grid maps over, line 151. *)
Definition records (s : State) : list json :=
  match properties s with
  | JArr l => l
  | _ => []
  end.

(** The record filter as the specification words it: whatever a successful
    response carried, every stored record has an identifier. *)
Definition stored_records_have_identifiers : Prop :=
  forall (w : World) (data : json),
    succeeds (Decoded data) = true ->
    Forall (fun r => has_identifier r = true)
           (records (ui (after (searchProperties_settle (Decoded data)) w))).

(** The success case as the specification words it: whenever a call
    settles with a well-formed response carrying [success: true], the page
    shows the results. *)
Definition success_always_shows_results : Prop :=
  forall (w w' : World) (n : nat) (data : json),
    reachable w ->
    response_with_success true data ->
    step w (Settle n (Decoded data)) = Some w' ->
    phase_of (ui w') = Results.

(** The reasons of the two failure classes as the specification words
    them. *)
Definition service_failure_reads_request_failed : Prop :=
  forall (w : World) (data : json),
    response_with_success false data ->
    error (ui (after (searchProperties_settle (Decoded data)) w)) =
    Some reason_request_failed.

Definition transport_failure_reads_connection_error : Prop :=
  forall (w : World) (o : outcome),
    transport_failure o ->
    error (ui (after (searchProperties_settle o) w)) =
    Some reason_connection_error.

Definition navigated (q : jsstring) (navs : list jsstring) : list jsstring :=
  if isWellFormed q then navs ++ [q] else navs.

(** *** Sample data *)

Definition q_one : jsstring := lit "homes in Victoria".
Definition q_two : jsstring := lit "homes in Tasmania".
Definition blank : jsstring := lit " ".

Definition listing (id : string) : json :=
  JObj [(lit "property_id", JStr (lit id)); (lit "suburb", JStr (lit "Carlton"))].

(** A record without [property_id]. *)
Definition listing_without_id : json :=
  JObj [(lit "suburb", JStr (lit "Carlton"))].

Definition success_payload (answer : string) (records : list json) : json :=
  JObj [(lit "success", JBool true);
        (lit "response", JStr (lit answer));
        (lit "properties", JArr records)].

Definition payload_one : json := success_payload "Found 1 home" [listing "p1"].
Definition payload_two : json :=
  success_payload "Found 2 homes" [listing "p2"; listing "p3"].
Definition failure_payload : json := JObj [(lit "success", JBool false)].

(** The component after [submit q_one] has settled with [payload_one]. *)
Definition first_search_done : World :=
  mkWorld (mkState q_one (JArr [listing "p1"]) false None
                   (JStr (lit "Found 1 home")))
          [mkRequest q_one 5] [] [q_one].

(** The component after [submit q_one] and [submit q_two], the first call
    rejected and the second still in flight. *)
Definition stale_failure_landed : World :=
  mkWorld (mkState q_two (JArr []) false (Some msg_connect) (JStr []))
          [mkRequest q_one 5; mkRequest q_two 5] [1] [q_one; q_two].

(** The component after [submit q_one] and [submit q_two], nothing settled. *)
Definition two_in_flight : World :=
  mkWorld (mkState q_two (JArr []) true None (JStr []))
          [mkRequest q_one 5; mkRequest q_two 5] [0; 1] [q_one; q_two].

(** ** The main content of the search page *)

(** The markup expression of lines 106-208, evaluated on a state: the data
    it puts on the page, or the exception its evaluation throws, the
    calls of [formatPrice] and the creation of the keyed elements
    included.  What React then does with the elements is outside this
    model, and so is the text [formatPrice] makes of a price. *)
Module Render.

Definition cbind {A B} (c : completion A) (k : A -> completion B)
  : completion B :=
  match c with
  | Normal a => k a
  | Throw e => Throw e
  end.

Notation "x <~ c ;; k" := (cbind c (fun x => k))
  (at level 61, c at next level, right associativity).

(** One card of the grid, lines 152-203: the values its markup is built
    from, [None] where a read gave [undefined]. *)
Record card : Type := mkCard {
  key : option json;              (* [property.property_id], before it is
                                     turned into a string *)
  image : json;                   (* [property.images || placeholder] *)
  alt : option json;              (* [property.street_address] *)
  price : option json;            (* the argument of [formatPrice] *)
  bedrooms : option json;
  bathrooms : option json;
  floor_area : option json;
  property_type : option json;
  street_address : option json;
  suburb : option json;
  state : option json;
  postcode : option json;
  chips : list json;              (* the amenity labels shown *)
  more : option nat               (* the count of the [+N more] badge *)
}.

Definition placeholder : jsstring := lit "/api/placeholder/400/300".

(** [property.amenities?.slice(0, 2).map(...)], lines 188-195: nothing for
    [undefined] or [null], the first two labels of an array, and a
    [TypeError] for anything else (a string has [slice] but no [map], the
    other values have no [slice]). *)
Definition amenity_chips (amenities : option json) : completion (list json) :=
  match amenities with
  | None | Some JNull => Normal []
  | Some (JArr l) => Normal (firstn 2 l)
  | Some _ => Throw TypeError
  end.

(** [property.amenities?.length > 2 && ... length - 2], lines 196-200,
    reached only when the chips were built, so with an array or no value. *)
Definition amenity_badge (amenities : option json) : option nat :=
  match amenities with
  | Some (JArr l) =>
      if 2 <? List.length l then Some (List.length l - 2) else None
  | _ => None
  end.

(** [ToPrimitive] completes on a decoded value.  A decoded object inherits
    [valueOf], which returns the object itself, so the conversion falls to
    [toString]: an own [toString] member is never callable and makes the
    conversion throw a [TypeError], while without one the inherited
    [toString] answers.  An array is joined, which converts its elements
    in turn. *)
Fixpoint toPrimitive_ok (v : json) : bool :=
  match v with
  | JObj fields =>
      match field (lit "toString") fields with
      | Some _ => false
      | None => true
      end
  | JArr items =>
      (fix all (l : list json) : bool :=
         match l with
         | [] => true
         | x :: r => toPrimitive_ok x && all r
         end) items
  | JNull | JBool _ | JNum _ | JStr _ => true
  end.

(** The same for the result of a property read; [undefined] is a
    primitive. *)
Definition converts (v : option json) : bool :=
  match v with
  | Some v' => toPrimitive_ok v'
  | None => true
  end.

(** [formatPrice], lines 57-63.  The text it returns is not modelled, only
    whether [Intl.NumberFormat.prototype.format] completes: it converts its
    argument to a number, which throws where [ToPrimitive] does. *)
Definition formatPrice (price : option json) : completion unit :=
  if converts price then Normal tt else Throw TypeError.

(** The key of a card, line 152: a key other than [undefined] is turned
    into a string when the element is created. *)
Definition keyOf (id : option json) : completion unit :=
  if converts id then Normal tt else Throw TypeError.

(** The callback of [properties.map], lines 151-204. *)
Definition card_of (property : json) : completion card :=
  id <~ get property (lit "property_id") ;;
  images <~ get property (lit "images") ;;
  street <~ get property (lit "street_address") ;;
  price <~ get property (lit "price") ;;
  _ <~ formatPrice price ;;
  beds <~ get property (lit "bedrooms") ;;
  baths <~ get property (lit "bathrooms") ;;
  area <~ get property (lit "floor_area") ;;
  kind <~ get property (lit "property_type") ;;
  suburb <~ get property (lit "suburb") ;;
  state <~ get property (lit "state") ;;
  postcode <~ get property (lit "postcode") ;;
  amenities <~ get property (lit "amenities") ;;
  chips <~ amenity_chips amenities ;;
  _ <~ keyOf id ;;
  Normal (mkCard id (or_else images (JStr placeholder)) street price
                 beds baths area kind street suburb state postcode
                 chips (amenity_badge amenities)).

Fixpoint cards_of (l : list json) : completion (list card) :=
  match l with
  | [] => Normal []
  | p :: l' =>
      c <~ card_of p ;;
      cs <~ cards_of l' ;;
      Normal (c :: cs)
  end.

(** What is shown below the header, lines 106-208. *)
Inductive view : Type :=
| ShowLoading
| ShowError (msg : jsstring)
| ShowResults (answer : json) (count : nat) (cards : list card).

(** The third branch, lines 112-206: [properties.length] and
    [properties.map] need an array; on any other stored value one of the
    two throws a [TypeError]. *)
Definition results (s : State) : completion view :=
  match properties s with
  | JArr l =>
      cards <~ cards_of l ;;
      Normal (ShowResults (aiResponse s) (List.length l) cards)
  | _ => Throw TypeError
  end.

Definition mainContent (s : State) : completion view :=
  if loading s then Normal ShowLoading
  else match error s with
       | Some e => if truthy_string e then Normal (ShowError e) else results s
       | None => results s
       end.

(** The records the callback can build a card from. *)
Definition card_ok (property : json) : bool :=
  match property with
  | JNull => false
  | JObj fields =>
      converts (field (lit "price") fields)
      && converts (field (lit "property_id") fields)
      && match field (lit "amenities") fields with
         | None | Some JNull | Some (JArr _) => true
         | Some _ => false
         end
  | JBool _ | JNum _ | JStr _ | JArr _ => true
  end.

Definition grid_ok (v : json) : bool :=
  match v with
  | JArr l => forallb card_ok l
  | _ => false
  end.

Definition is_array (v : json) : bool :=
  match v with JArr _ => true | _ => false end.

Definition is_string (v : json) : bool :=
  match v with JStr _ => true | _ => false end.

End Render.

(** ** The routes of the application *)

Module App.

(** The two routes: [/] shows the home page, [/search] the search page. *)
Inductive page : Type :=
| Home (s : AIHomeSearch.State)
| Search (w : World).

(** Arriving at [/search] mounts the search page; [q] is the value of the
    [q] parameter, which the router decodes back to the encoded query. *)
Definition open_search (q : option jsstring) : page := Search (mount q).

(** Submitting the form of the home page. *)
Definition home_submit (s : AIHomeSearch.State) : completion page :=
  match AIHomeSearch.handleSearch s with
  | Normal (Some q) => Normal (open_search (Some q))
  | Normal None => Normal (Home s)
  | Throw e => Throw e
  end.

(** Clicking a quick-search button of the home page. *)
Definition home_quick (item : jsstring * jsstring) (s : AIHomeSearch.State)
  : completion page :=
  match snd (AIHomeSearch.quickSearch item s) with
  | Normal q => Normal (open_search (Some q))
  | Throw e => Throw e
  end.

(** The button of the home page that calls [navigate('/search')]. *)
Definition home_ask : page := open_search None.

End App.

(** ** Vocabulary of the further statements *)

(** The queries of the submissions a run of events lets through, given the
    text in the search box when the run starts. *)
Fixpoint submitted (box : jsstring) (evs : list event) : list jsstring :=
  match evs with
  | [] => []
  | Change q :: evs' => submitted q evs'
  | Submit :: evs' =>
      if truthy_string box then box :: submitted box evs'
      else submitted box evs'
  | Settle _ _ :: evs' => submitted box evs'
  end.

(** The service keeps its contract on an event: a successful response has a
    list (or nothing) as [properties] and a string (or nothing) as
    [response]. *)
Definition keeps_contract (ev : event) : bool :=
  match ev with
  | Settle _ (Decoded d) =>
      if succeeds (Decoded d)
      then Render.is_array (records_of d) && Render.is_string (answer_of d)
      else true
  | _ => true
  end.

(** The attempts in flight are calls that were issued, each once, and the
    loading flag is up only while one of them is outstanding. *)
Definition bookkeeping (w : World) : Prop :=
  (forall n, In n (inflight w) -> n < List.length (requests w)) /\
  NoDup (inflight w) /\
  (loading (ui w) = true -> inflight w <> []).

(** What the two cells of a result can hold. *)
Definition cells_defined (s : State) : Prop :=
  truthy (properties s) = true /\
  (aiResponse s = JStr [] \/ truthy (aiResponse s) = true).

(** The component after a blank search that failed, an ignored empty
    submission and a search for [q_one] that succeeded. *)
Definition after_blank_then_search : World :=
  mkWorld (mkState q_one (JArr [listing "p1"]) false None
                   (JStr (lit "Found 1 home")))
          [mkRequest blank 5; mkRequest q_one 5] [] [blank; q_one].

(** The component after two overlapping searches, the second settled with
    [payload_two] and then the first with [failure_payload]. *)
Definition overlap_settled : World :=
  mkWorld (mkState q_two (JArr [listing "p2"; listing "p3"]) false
                   (Some msg_failed) (JStr (lit "Found 2 homes")))
          [mkRequest q_one 5; mkRequest q_two 5] [] [q_one; q_two].

(** A record with several amenities, one with none, and a response whose
    property list is not a list. *)
Definition listing_with_amenities : json :=
  JObj [(lit "property_id", JStr (lit "p7"));
        (lit "amenities",
         JArr [JStr (lit "pool"); JStr (lit "garage"); JStr (lit "garden");
               JStr (lit "gym")])].

(** A record whose price is an object with a [toString] member. *)
Definition listing_with_bad_price : json :=
  JObj [(lit "property_id", JStr (lit "p9"));
        (lit "price", JObj [(lit "toString", JNum 1)])].

Definition payload_with_bad_list : json :=
  JObj [(lit "success", JBool true); (lit "properties", JStr (lit "none"))].

(** ** How a settled call changes the state *)

Lemma settle_succeeds (w : World) (d : json) :
  succeeds (Decoded d) = true ->
  searchProperties_settle (Decoded d) w =
  (Normal tt,
   with_ui w (mkState (searchQuery (ui w)) (records_of d) false
                      (error (ui w)) (answer_of d))).
Proof.
  intros H.
  destruct d as [ | b | x | s | l | fields ]; simpl in H; try discriminate.
  unfold searchProperties_settle, try_catch_finally, searchProperties_body,
    bind, lift, records_of, answer_of, get.
  rewrite H. reflexivity.
Qed.

Lemma settle_failed (w : World) (o : outcome) :
  failed o = true ->
  searchProperties_settle o w =
  (Normal tt,
   with_ui w (mkState (searchQuery (ui w)) (properties (ui w)) false
                      (Some (message_of o)) (aiResponse (ui w)))).
Proof.
  unfold failed. intros H. apply negb_true_iff in H.
  destruct o as [ | | d ]; try reflexivity.
  destruct d as [ | b | x | s | l | fields ]; try reflexivity.
  simpl in H.
  unfold searchProperties_settle, try_catch_finally, searchProperties_body,
    bind, lift, message_of, get.
  rewrite H. reflexivity.
Qed.

Lemma call_spec (w : World) (q : jsstring) :
  searchProperties_call q w =
  (Normal (List.length (requests w)),
   mkWorld (mkState (searchQuery (ui w)) (properties (ui w)) true None
                    (aiResponse (ui w)))
           (requests w ++ [mkRequest q 5])
           (inflight w ++ [List.length (requests w)])
           (navigations w)).
Proof. reflexivity. Qed.

Lemma call_then_navigate_ui (w : World) (q : jsstring) :
  ui (snd ((searchProperties_call q ;; navigate q) w)) =
  mkState (searchQuery (ui w)) (properties (ui w)) true None (aiResponse (ui w)).
Proof.
  unfold bind. rewrite call_spec. unfold navigate.
  destruct (isWellFormed q); reflexivity.
Qed.

Lemma trim_nonempty (q : jsstring) :
  truthy_string (trim q) = true -> truthy_string q = true.
Proof. destruct q; [ discriminate | reflexivity ]. Qed.

Lemma is_inflight_retire (n m : nat) (w : World) :
  n <> m -> is_inflight n w = true -> is_inflight n (retire m w) = true.
Proof.
  unfold is_inflight, retire; simpl. intros Hnm H.
  apply existsb_exists in H. destruct H as [k [Hin Hk]].
  apply existsb_exists. exists k. split; [ | exact Hk ].
  apply filter_In. split; [ exact Hin | ].
  apply Nat.eqb_eq in Hk. subst k.
  apply negb_true_iff. apply Nat.eqb_neq. congruence.
Qed.

Lemma step_settle_succeeds (w : World) (n : nat) (d : json) :
  is_inflight n w = true -> succeeds (Decoded d) = true ->
  step w (Settle n (Decoded d)) =
  Some (with_ui (retire n w)
          (mkState (searchQuery (ui w)) (records_of d) false
                   (error (ui w)) (answer_of d))).
Proof.
  intros Hin Hs. unfold step, after. rewrite Hin.
  rewrite (settle_succeeds _ _ Hs). reflexivity.
Qed.

Lemma step_settle_failed (w : World) (n : nat) (o : outcome) :
  is_inflight n w = true -> failed o = true ->
  step w (Settle n o) =
  Some (with_ui (retire n w)
          (mkState (searchQuery (ui w)) (properties (ui w)) false
                   (Some (message_of o)) (aiResponse (ui w)))).
Proof.
  intros Hin Hf. unfold step, after. rewrite Hin.
  rewrite (settle_failed _ _ Hf). reflexivity.
Qed.

Lemma run_submit (w : World) (q : jsstring) :
  truthy_string q = true ->
  run (submit q) w =
  Some (mkWorld (mkState q (properties (ui w)) true None (aiResponse (ui w)))
                (requests w ++ [mkRequest q 5])
                (inflight w ++ [List.length (requests w)])
                (navigated q (navigations w))).
Proof.
  intros Hq. unfold submit, run, step, after, handleSearch. simpl.
  rewrite Hq. unfold bind, navigate, navigated. simpl.
  destruct (isWellFormed q); reflexivity.
Qed.

Lemma run_app (evs1 evs2 : list event) (w : World) :
  run (evs1 ++ evs2) w =
  match run evs1 w with
  | Some w' => run evs2 w'
  | None => None
  end.
Proof.
  revert w. induction evs1 as [ | ev evs1 IH ]; intros w; simpl.
  - reflexivity.
  - destruct (step w ev) as [w' | ]; [ apply IH | reflexivity ].
Qed.

(** ** Overlapping attempts *)

(** An attempt that settles while a later one is in flight still writes its
    result: attempt 0 settles after attempt 1 and replaces what attempt 1
    stored. *)
Lemma stale_outcome_lands : ~ only_latest_attempt_lands.
Proof.
  intros H.
  pose (evs := submit q_one ++ submit q_two ++ [Settle 1 (Decoded payload_two)]).
  destruct (run evs (mount None)) as [w | ] eqn:Hrun; [ | discriminate Hrun ].
  destruct (step w (Settle 0 (Decoded payload_one))) as [w' | ] eqn:Hstep.
  - assert (Hr : reachable w) by (exists None, evs; exact Hrun).
    assert (Hsup : superseded 0 w).
    { vm_compute in Hrun. injection Hrun as <-. unfold superseded. simpl. lia. }
    specialize (H w w' 0 (Decoded payload_one) Hr Hsup Hstep).
    vm_compute in Hrun. injection Hrun as <-.
    vm_compute in Hstep. injection Hstep as <-.
    vm_compute in H. discriminate H.
  - vm_compute in Hrun. injection Hrun as <-.
    vm_compute in Hstep. discriminate Hstep.
Qed.

(** C1 (as the code has it): every settling attempt writes its outcome,
    whether or not a later attempt has begun.  After [submit q1] and
    [submit q2] with both calls in flight, two success payloads leave the
    state of the one that settled last: the second attempt's when it settles
    last, the first attempt's when that one settles last. *)
Theorem last_settled_attempt_wins
    (w w2 : World) (q1 q2 : jsstring) (d1 d2 : json) :
  truthy_string q1 = true -> truthy_string q2 = true ->
  succeeds (Decoded d1) = true -> succeeds (Decoded d2) = true ->
  run (submit q1 ++ submit q2) w = Some w2 ->
  let a := List.length (requests w) in
  let b := S a in
  (exists wf,
      run [Settle a (Decoded d1); Settle b (Decoded d2)] w2 = Some wf /\
      properties (ui wf) = records_of d2 /\
      aiResponse (ui wf) = answer_of d2 /\
      phase_of (ui wf) = Results) /\
  (exists wf,
      run [Settle b (Decoded d2); Settle a (Decoded d1)] w2 = Some wf /\
      properties (ui wf) = records_of d1 /\
      aiResponse (ui wf) = answer_of d1 /\
      phase_of (ui wf) = Results).
Proof.
  intros Hq1 Hq2 Hd1 Hd2 Hrun a b.
  assert (Hw2 : exists s nav,
             w2 = mkWorld s (requests w ++ [mkRequest q1 5] ++ [mkRequest q2 5])
                          (inflight w ++ [a] ++ [b]) nav /\ error s = None).
  { rewrite run_app, (run_submit w q1 Hq1), (run_submit _ q2 Hq2) in Hrun.
    injection Hrun as <-.
    cbn [ui requests inflight navigations properties aiResponse].
    eexists (mkState q2 _ true None _), _. split; [ | reflexivity ].
    unfold b, a. rewrite length_app, Nat.add_comm. cbn [List.length Nat.add].
    rewrite <- !app_assoc. reflexivity. }
  destruct Hw2 as [s [nav [-> Herr]]].
  assert (Ha : forall nav' s', is_inflight a
             (mkWorld s' (requests w ++ [mkRequest q1 5] ++ [mkRequest q2 5])
                      (inflight w ++ [a] ++ [b]) nav') = true).
  { intros. unfold is_inflight; cbn [inflight].
    rewrite !existsb_app. cbn [existsb]. rewrite Nat.eqb_refl.
    rewrite orb_true_r. reflexivity. }
  assert (Hb : forall nav' s', is_inflight b
             (mkWorld s' (requests w ++ [mkRequest q1 5] ++ [mkRequest q2 5])
                      (inflight w ++ [a] ++ [b]) nav') = true).
  { intros. unfold is_inflight; cbn [inflight].
    rewrite !existsb_app. cbn [existsb]. rewrite Nat.eqb_refl.
    rewrite !orb_true_r. reflexivity. }
  assert (Hab : a <> b) by (unfold b; lia).
  split.
  - cbn [run]. rewrite (step_settle_succeeds _ _ _ (Ha _ _) Hd1).
    rewrite step_settle_succeeds;
      [ | apply is_inflight_retire; [ congruence | apply Hb ] | exact Hd2 ].
    eexists. split; [ reflexivity | ].
    cbn [ui with_ui retire properties aiResponse error loading].
    unfold phase_of; cbn [loading error]. rewrite Herr. repeat split.
  - cbn [run]. rewrite (step_settle_succeeds _ _ _ (Hb _ _) Hd2).
    rewrite step_settle_succeeds;
      [ | apply is_inflight_retire; [ exact Hab | apply Ha ] | exact Hd1 ].
    eexists. split; [ reflexivity | ].
    cbn [ui with_ui retire properties aiResponse error loading].
    unfold phase_of; cbn [loading error]. rewrite Herr. repeat split.
Qed.

Lemma last_settled_attempt_wins_witness :
  run (submit q_one ++ submit q_two) (mount None) = Some two_in_flight /\
  (exists wf,
      run [Settle 0 (Decoded payload_one); Settle 1 (Decoded payload_two)]
          two_in_flight = Some wf /\
      properties (ui wf) = records_of payload_two /\
      aiResponse (ui wf) = answer_of payload_two /\
      phase_of (ui wf) = Results) /\
  (exists wf,
      run [Settle 1 (Decoded payload_two); Settle 0 (Decoded payload_one)]
          two_in_flight = Some wf /\
      properties (ui wf) = records_of payload_one /\
      aiResponse (ui wf) = answer_of payload_one /\
      phase_of (ui wf) = Results).
Proof.
  split; [ reflexivity | ].
  apply (last_settled_attempt_wins (mount None) two_in_flight q_one q_two
           payload_one payload_two);
    reflexivity.
Defined.

(** ** The error cell, the stored result and the phase *)

Lemma message_of_cases (o : outcome) :
  message_of o = msg_failed \/ message_of o = msg_connect.
Proof.
  destruct o as [ | | d ]; [ right | right | ]; try reflexivity.
  destruct d; simpl; auto.
Qed.

Lemma error_discipline_mount (q : option jsstring) :
  error_discipline (ui (mount q)).
Proof.
  unfold mount, after, mountEffect, initial; cbn [ui searchQuery].
  destruct q as [ s | ]; [ destruct (truthy_string s) eqn:Hs | ].
  - rewrite Hs. split; [ reflexivity | left; reflexivity ].
  - split; [ discriminate | left; reflexivity ].
  - split; [ discriminate | left; reflexivity ].
Qed.

Lemma error_discipline_step (w w' : World) (ev : event) :
  error_discipline (ui w) -> step w ev = Some w' -> error_discipline (ui w').
Proof.
  intros [Hl He] Hstep. destruct ev as [ q | | n o ]; simpl in Hstep.
  - injection Hstep as <-. split; assumption.
  - injection Hstep as <-. unfold after, handleSearch.
    destruct (truthy_string (searchQuery (ui w))).
    + rewrite call_then_navigate_ui.
      split; [ reflexivity | left; reflexivity ].
    + split; assumption.
  - destruct (is_inflight n w); [ | discriminate ].
    injection Hstep as <-. unfold after.
    destruct (succeeds o) eqn:Hs.
    + destruct o as [ | | d ]; try discriminate.
      rewrite (settle_succeeds _ _ Hs).
      split; [ discriminate | exact He ].
    + rewrite settle_failed by (unfold failed; rewrite Hs; reflexivity).
      split; [ discriminate | right ]. cbn [snd ui with_ui error].
      destruct (message_of_cases o) as [-> | ->]; auto.
Qed.

Lemma error_discipline_run (evs : list event) (w w' : World) :
  error_discipline (ui w) -> run evs w = Some w' -> error_discipline (ui w').
Proof.
  revert w. induction evs as [ | ev evs IH ]; intros w Hw Hrun; simpl in Hrun.
  - injection Hrun as <-. exact Hw.
  - destruct (step w ev) as [w1 | ] eqn:Hstep; [ | discriminate ].
    apply (IH w1); [ | exact Hrun ].
    apply (error_discipline_step w w1 ev); assumption.
Qed.

Lemma reachable_error_discipline (w : World) :
  reachable w -> error_discipline (ui w).
Proof.
  intros [q [evs Hrun]].
  apply (error_discipline_run evs (mount q)); [ | exact Hrun ].
  apply error_discipline_mount.
Qed.

(** A successful search followed by a failed one ends in the error phase
    with the records of the first search still stored. *)
Lemma result_survives_into_error_phase :
  ~ (forall w, reachable w -> phase_invariant_as_specified (ui w)).
Proof.
  intros H.
  pose (evs := submit q_one ++ [Settle 0 (Decoded payload_one); Submit;
                                Settle 1 (Decoded failure_payload)]).
  destruct (run evs (mount None)) as [w | ] eqn:Hrun;
    [ | vm_compute in Hrun; discriminate Hrun ].
  destruct (H w (ex_intro _ None (ex_intro _ evs Hrun))) as [Hres _].
  vm_compute in Hrun. injection Hrun as <-.
  assert (Hphase : phase_of
            (mkState q_one (JArr [listing "p1"]) false (Some msg_failed)
                     (JStr (lit "Found 1 home"))) = Results).
  { apply Hres. intros [Hp _]. discriminate Hp. }
  discriminate Hphase.
Qed.

(** C2 (as the code has it): in every reachable state the error reason is
    present exactly in the error phase and absent while loading.  The
    stored result is not tied to the phase: starting a search clears the
    error and keeps the result, a successful outcome stores the result and
    leaves the error cell as it was, a failed outcome sets the error and
    leaves the result as it was. *)
Theorem error_reason_follows_phase
    (w : World) (q : jsstring) (d : json) (o : outcome) :
  reachable w -> succeeds (Decoded d) = true -> failed o = true ->
  (error (ui w) <> None <-> phase_of (ui w) = Error) /\
  (phase_of (ui w) = Loading -> error (ui w) = None) /\
  (let s' := ui (after (searchProperties_call q) w) in
   phase_of s' = Loading /\ error s' = None /\
   properties s' = properties (ui w) /\ aiResponse s' = aiResponse (ui w)) /\
  (let s' := ui (after (searchProperties_settle (Decoded d)) w) in
   properties s' = records_of d /\ aiResponse s' = answer_of d /\
   error s' = error (ui w)) /\
  (let s' := ui (after (searchProperties_settle o) w) in
   phase_of s' = Error /\ error s' = Some (message_of o) /\
   properties s' = properties (ui w) /\ aiResponse s' = aiResponse (ui w)).
Proof.
  intros Hr Hd Ho.
  destruct (reachable_error_discipline w Hr) as [Hl He].
  repeat split.
  - intros Hne. unfold phase_of.
    destruct (loading (ui w)); [ elim Hne; apply Hl; reflexivity | ].
    destruct He as [He | [He | He]]; rewrite He in *;
      [ elim Hne | | ]; reflexivity.
  - unfold phase_of. destruct (loading (ui w)); [ discriminate | ].
    destruct (error (ui w)); discriminate.
  - unfold phase_of. destruct (loading (ui w)) eqn:Hload;
      [ intros _; apply Hl; reflexivity | ].
    destruct (error (ui w)) as [ e | ];
      [ destruct (truthy_string e) | ]; discriminate.
  - unfold after. rewrite (settle_succeeds _ _ Hd). reflexivity.
  - unfold after. rewrite (settle_succeeds _ _ Hd). reflexivity.
  - unfold after. rewrite (settle_succeeds _ _ Hd). reflexivity.
  - unfold after. rewrite (settle_failed _ _ Ho). cbn [ui with_ui].
    unfold phase_of; cbn [loading error].
    destruct (message_of_cases o) as [-> | ->]; reflexivity.
  - unfold after. rewrite (settle_failed _ _ Ho). reflexivity.
  - unfold after. rewrite (settle_failed _ _ Ho). reflexivity.
  - unfold after. rewrite (settle_failed _ _ Ho). reflexivity.
Qed.

Lemma error_reason_follows_phase_witness :
  reachable two_in_flight /\
  (error (ui two_in_flight) <> None <-> phase_of (ui two_in_flight) = Error) /\
  (phase_of (ui two_in_flight) = Loading -> error (ui two_in_flight) = None) /\
  (let s' := ui (after (searchProperties_call q_one) two_in_flight) in
   phase_of s' = Loading /\ error s' = None /\
   properties s' = properties (ui two_in_flight) /\
   aiResponse s' = aiResponse (ui two_in_flight)) /\
  (let s' := ui (after (searchProperties_settle (Decoded payload_one))
                       two_in_flight) in
   properties s' = records_of payload_one /\
   aiResponse s' = answer_of payload_one /\
   error s' = error (ui two_in_flight)) /\
  (let s' := ui (after (searchProperties_settle FetchRejected) two_in_flight) in
   phase_of s' = Error /\ error s' = Some (message_of FetchRejected) /\
   properties s' = properties (ui two_in_flight) /\
   aiResponse s' = aiResponse (ui two_in_flight)).
Proof.
  assert (Hr : reachable two_in_flight).
  { exists None, (submit q_one ++ submit q_two). reflexivity. }
  split; [ exact Hr | ].
  apply (error_reason_follows_phase two_in_flight q_one payload_one
           FetchRejected Hr); reflexivity.
Defined.

(** ** The guard on empty submissions *)

Lemma empty_query_is_ignored (w : World) :
  searchQuery (ui w) = [] -> handleSearch w = (Normal tt, w).
Proof. intros H. unfold handleSearch. rewrite H. reflexivity. Qed.

Lemma home_page_ignores_blank_query (s : AIHomeSearch.State) :
  trim (AIHomeSearch.searchQuery s) = [] ->
  AIHomeSearch.handleSearch s = Normal None.
Proof. intros H. unfold AIHomeSearch.handleSearch. rewrite H. reflexivity. Qed.

(** C3 (the code at a query of one space): the trimmed query is empty and
    the form of the home page ignores it, but the form of the search page
    tests the untrimmed text, so submitting it there starts a search: the
    phase becomes loading, a remote call carrying the blank query is issued
    and the address changes. *)
Theorem blank_query_is_searched :
  trim blank = [] /\
  AIHomeSearch.handleSearch (AIHomeSearch.mkState blank) = Normal None /\
  run (submit blank) (mount None) =
  Some (mkWorld (mkState blank (JArr []) true None (JStr []))
                [mkRequest blank 5] [0] [blank]) /\
  loading (ui (mount None)) = false /\
  requests (mount None) = [].
Proof. repeat split. Qed.

(** ** Outcomes of one search *)

Lemma response_with_success_true (data : json) :
  response_with_success true data -> succeeds (Decoded data) = true.
Proof.
  intros [fields [-> Hs]]. unfold succeeds, get. rewrite Hs. reflexivity.
Qed.

Lemma response_with_success_false (data : json) :
  response_with_success false data ->
  failed (Decoded data) = true /\ message_of (Decoded data) = msg_failed.
Proof.
  intros [fields [-> Hs]]. unfold failed, succeeds, message_of, get.
  rewrite Hs. split; reflexivity.
Qed.

Lemma transport_failure_failed (o : outcome) :
  transport_failure o -> failed o = true /\ message_of o = msg_connect.
Proof. intros [-> | ->]; split; reflexivity. Qed.

(** The latest search succeeds after an older, overlapping one has
    failed: the result is stored and the page shows the error. *)
Lemma success_after_stale_failure_shows_error :
  ~ success_always_shows_results.
Proof.
  intros H.
  pose (evs := submit q_one ++ submit q_two ++ [Settle 0 FetchRejected]).
  destruct (run evs (mount None)) as [w | ] eqn:Hrun;
    [ | vm_compute in Hrun; discriminate Hrun ].
  destruct (step w (Settle 1 (Decoded payload_two))) as [w' | ] eqn:Hstep.
  - assert (Hr : reachable w) by (exists None, evs; exact Hrun).
    assert (Hok : response_with_success true payload_two).
    { eexists. split; reflexivity. }
    specialize (H w w' 1 payload_two Hr Hok Hstep).
    vm_compute in Hrun. injection Hrun as <-.
    vm_compute in Hstep. injection Hstep as <-.
    vm_compute in H. discriminate H.
  - vm_compute in Hrun. injection Hrun as <-.
    vm_compute in Hstep. discriminate Hstep.
Qed.

(** C4 (as the code has it): when a call settles with a well-formed
    response carrying [success: true], in whatever state, the answer text
    of the response (empty when the response has none) and the property
    list of the response in its order (empty when the response has none)
    are stored, loading is switched off and the error cell is left as it
    was.  So the page shows the results when the error cell is empty at
    that moment, and the error of an earlier failure when it is not.  The
    error cell is empty, and the phase is the results phase, whenever the
    call settles in the state its own start left. *)
Theorem success_response_is_stored
    (w : World) (q : jsstring) (data : json) (a : jsstring) (l : list json) :
  response_with_success true data ->
  answer_text data a ->
  record_list data l ->
  (let s' := ui (after (searchProperties_settle (Decoded data)) w) in
   aiResponse s' = JStr a /\
   properties s' = JArr l /\
   loading s' = false /\
   error s' = error (ui w) /\
   phase_of s' = match error (ui w) with
                 | Some e => if truthy_string e then Error else Results
                 | None => Results
                 end) /\
  (let w1 := after (searchProperties_call q) w in
   let s' := ui (after (searchProperties_settle (Decoded data)) w1) in
   phase_of s' = Results /\
   aiResponse s' = JStr a /\
   properties s' = JArr l /\
   error s' = None).
Proof.
  intros Hok Ha Hl.
  assert (Hans : answer_of data = JStr a).
  { unfold answer_of. destruct Ha as [-> | [-> ->]]; [ | reflexivity ].
    destruct a; reflexivity. }
  assert (Hrec : records_of data = JArr l).
  { unfold records_of. destruct Hl as [-> | [-> ->]]; reflexivity. }
  pose proof (response_with_success_true _ Hok) as Hs.
  split.
  - intros s'. subst s'. unfold after.
    rewrite (settle_succeeds _ _ Hs), Hans, Hrec. repeat split.
  - intros w1 s'. subst s' w1. unfold after.
    rewrite call_spec. rewrite (settle_succeeds _ _ Hs), Hans, Hrec.
    repeat split.
Qed.

Lemma success_response_is_stored_witness :
  run (submit q_one ++ submit q_two ++ [Settle 0 FetchRejected]) (mount None)
    = Some stale_failure_landed /\
  response_with_success true payload_two /\
  answer_text payload_two (lit "Found 2 homes") /\
  record_list payload_two [listing "p2"; listing "p3"] /\
  (let s' := ui (after (searchProperties_settle (Decoded payload_two))
                       stale_failure_landed) in
   aiResponse s' = JStr (lit "Found 2 homes") /\
   properties s' = JArr [listing "p2"; listing "p3"] /\
   loading s' = false /\
   error s' = error (ui stale_failure_landed) /\
   phase_of s' = match error (ui stale_failure_landed) with
                 | Some e => if truthy_string e then Error else Results
                 | None => Results
                 end) /\
  (let w1 := after (searchProperties_call q_two) stale_failure_landed in
   let s' := ui (after (searchProperties_settle (Decoded payload_two)) w1) in
   phase_of s' = Results /\
   aiResponse s' = JStr (lit "Found 2 homes") /\
   properties s' = JArr [listing "p2"; listing "p3"] /\
   error s' = None).
Proof.
  assert (H1 : response_with_success true payload_two).
  { eexists. split; reflexivity. }
  assert (H2 : answer_text payload_two (lit "Found 2 homes")).
  { left. reflexivity. }
  assert (H3 : record_list payload_two [listing "p2"; listing "p3"]).
  { left. reflexivity. }
  split; [ vm_compute; reflexivity | ].
  split; [ exact H1 | split; [ exact H2 | split; [ exact H3 | ] ] ].
  exact (success_response_is_stored stale_failure_landed q_two payload_two
           (lit "Found 2 homes") [listing "p2"; listing "p3"] H1 H2 H3).
Defined.

(** The reason stored for a [success: false] response is not the text
    ["request failed"]. *)
Lemma service_failure_reason_differs : ~ service_failure_reads_request_failed.
Proof.
  intros H.
  assert (Hf : response_with_success false failure_payload).
  { eexists. split; reflexivity. }
  specialize (H (mount None) failure_payload Hf).
  vm_compute in H. discriminate H.
Qed.

(** C5 (as the code has it): a well-formed response whose success indicator
    is false leaves the error phase with the reason
    ["Failed to fetch properties"], and settling issues no further remote
    call: nothing is retried. *)
Theorem service_failure_is_reported (w : World) (data : json) :
  response_with_success false data ->
  let w' := after (searchProperties_settle (Decoded data)) w in
  phase_of (ui w') = Error /\
  error (ui w') = Some (lit "Failed to fetch properties") /\
  requests w' = requests w /\
  inflight w' = inflight w.
Proof.
  intros Hf w'. subst w'. unfold after.
  destruct (response_with_success_false _ Hf) as [Hfailed Hmsg].
  rewrite (settle_failed _ _ Hfailed), Hmsg. repeat split.
Qed.

Lemma service_failure_is_reported_witness :
  response_with_success false failure_payload /\
  let w' := after (searchProperties_settle (Decoded failure_payload))
                  first_search_done in
  phase_of (ui w') = Error /\
  error (ui w') = Some (lit "Failed to fetch properties") /\
  requests w' = requests first_search_done /\
  inflight w' = inflight first_search_done.
Proof.
  assert (Hf : response_with_success false failure_payload).
  { eexists. split; reflexivity. }
  split; [ exact Hf | ].
  exact (service_failure_is_reported first_search_done failure_payload Hf).
Defined.

(** The reason stored for a rejected call is not the text
    ["connection error"]. *)
Lemma transport_failure_reason_differs :
  ~ transport_failure_reads_connection_error.
Proof.
  intros H.
  specialize (H (mount None) FetchRejected (or_introl eq_refl)).
  vm_compute in H. discriminate H.
Qed.

(** C6 (as the code has it): when the call is rejected or its body cannot
    be decoded, the search ends in the error phase with the reason
    ["Error connecting to the server"], which differs from the reason of a
    [success: false] response. *)
Theorem transport_failure_is_reported (w : World) (o : outcome) :
  transport_failure o ->
  let w' := after (searchProperties_settle o) w in
  phase_of (ui w') = Error /\
  error (ui w') = Some (lit "Error connecting to the server") /\
  error (ui w') <> Some (lit "Failed to fetch properties").
Proof.
  intros Ht w'. subst w'. unfold after.
  destruct (transport_failure_failed _ Ht) as [Hfailed Hmsg].
  rewrite (settle_failed _ _ Hfailed), Hmsg.
  repeat split. discriminate.
Qed.

Lemma transport_failure_is_reported_witness :
  transport_failure BodyUndecodable /\
  let w' := after (searchProperties_settle BodyUndecodable) two_in_flight in
  phase_of (ui w') = Error /\
  error (ui w') = Some (lit "Error connecting to the server") /\
  error (ui w') <> Some (lit "Failed to fetch properties").
Proof.
  split; [ right; reflexivity | ].
  exact (transport_failure_is_reported two_in_flight BodyUndecodable
           (or_intror eq_refl)).
Defined.

(** ** The stored records *)

(** A record without [property_id] in a successful response is stored like
    any other. *)
Lemma record_without_identifier_is_stored : ~ stored_records_have_identifiers.
Proof.
  intros H.
  specialize (H (mount None)
                (success_payload "Found 1 home" [listing_without_id])
                eq_refl).
  vm_compute in H. inversion H as [ | r rs Hid _ ]. discriminate Hid.
Qed.

(** C7 (as the code has it): the property list of a successful response is
    stored as received.  Every record of the response is among the stored
    records, in the order of the response, whether or not it has an
    identifier, whether or not an identifier repeats, and whichever other
    fields it lacks; no record makes the search fail. *)
Theorem records_are_stored_as_received
    (w : World) (data : json) (l : list json) :
  succeeds (Decoded data) = true ->
  get data (lit "properties") = Normal (Some (JArr l)) ->
  exists w',
    searchProperties_settle (Decoded data) w = (Normal tt, w') /\
    records (ui w') = l /\
    loading (ui w') = false /\
    error (ui w') = error (ui w).
Proof.
  intros Hs Hl. rewrite (settle_succeeds _ _ Hs).
  eexists. split; [ reflexivity | ].
  unfold records; cbn [ui with_ui properties loading error].
  unfold records_of. rewrite Hl. repeat split.
Qed.

Lemma records_are_stored_as_received_witness :
  succeeds (Decoded (success_payload "Found 3 homes"
                       [listing_without_id; listing "p1"; listing "p1"])) = true /\
  get (success_payload "Found 3 homes"
         [listing_without_id; listing "p1"; listing "p1"])
      (lit "properties") =
  Normal (Some (JArr [listing_without_id; listing "p1"; listing "p1"])) /\
  exists w',
    searchProperties_settle
      (Decoded (success_payload "Found 3 homes"
                  [listing_without_id; listing "p1"; listing "p1"]))
      two_in_flight = (Normal tt, w') /\
    records (ui w') = [listing_without_id; listing "p1"; listing "p1"] /\
    loading (ui w') = false /\
    error (ui w') = error (ui two_in_flight).
Proof.
  split; [ reflexivity | split; [ reflexivity | ] ].
  exact (records_are_stored_as_received two_in_flight
           (success_payload "Found 3 homes"
              [listing_without_id; listing "p1"; listing "p1"])
           [listing_without_id; listing "p1"; listing "p1"]
           eq_refl eq_refl).
Defined.

(** ** Starting and finishing a search *)

(** C8: submitting a query that is not empty after trimming puts the
    component in the loading phase at once, with the remote call issued and
    still in flight; the call carries the query and the result-count hint
    [top_k = 5], a positive integer.  Mounting the component with such a
    query in the address does the same. *)
Theorem submit_starts_loading (w : World) (q : jsstring) :
  truthy_string (trim q) = true ->
  (exists w',
      run (submit q) w = Some w' /\
      phase_of (ui w') = Loading /\
      requests w' = requests w ++ [mkRequest q 5] /\
      is_inflight (List.length (requests w)) w' = true /\
      (0 < top_k (mkRequest q 5))%Z) /\
  phase_of (ui (mount (Some q))) = Loading /\
  requests (mount (Some q)) = [mkRequest q 5] /\
  inflight (mount (Some q)) = [0].
Proof.
  intros Hq. pose proof (trim_nonempty q Hq) as Hq'. split.
  - rewrite (run_submit w q Hq').
    eexists. split; [ reflexivity | ].
    repeat split.
    unfold is_inflight; cbn [inflight]. rewrite existsb_app. cbn [existsb].
    rewrite Nat.eqb_refl, orb_true_r. reflexivity.
  - unfold mount, after, mountEffect, initial; cbn [ui searchQuery].
    rewrite !Hq'. repeat split.
Qed.

Lemma submit_starts_loading_witness :
  truthy_string (trim q_two) = true /\
  (exists w',
      run (submit q_two) first_search_done = Some w' /\
      phase_of (ui w') = Loading /\
      requests w' = requests first_search_done ++ [mkRequest q_two 5] /\
      is_inflight (List.length (requests first_search_done)) w' = true /\
      (0 < top_k (mkRequest q_two 5))%Z) /\
  phase_of (ui (mount (Some q_two))) = Loading /\
  requests (mount (Some q_two)) = [mkRequest q_two 5] /\
  inflight (mount (Some q_two)) = [0].
Proof.
  split; [ reflexivity | ].
  exact (submit_starts_loading first_search_done q_two eq_refl).
Defined.

(** C9: no part of [searchProperties] throws to its caller.  Starting a
    search completes normally, and whatever way the remote call settles
    (a decoded value of any shape, a rejected call, an undecodable body) the
    rest of the function completes normally and leaves a state that is not
    loading. *)
Theorem no_exception_escapes (w : World) (q : jsstring) (o : outcome) :
  (exists n w1, searchProperties_call q w = (Normal n, w1)) /\
  (exists w2,
      searchProperties_settle o w = (Normal tt, w2) /\
      loading (ui w2) = false /\
      phase_of (ui w2) <> Loading).
Proof.
  split.
  - rewrite call_spec. eexists _, _. reflexivity.
  - destruct (succeeds o) eqn:Hs.
    + destruct o as [ | | d ]; try discriminate.
      rewrite (settle_succeeds _ _ Hs). eexists. split; [ reflexivity | ].
      split; [ reflexivity | ].
      unfold phase_of; cbn [ui with_ui loading error].
      destruct (error (ui w)) as [ e | ];
        [ destruct (truthy_string e) | ]; discriminate.
    + rewrite settle_failed by (unfold failed; rewrite Hs; reflexivity).
      eexists. split; [ reflexivity | ].
      split; [ reflexivity | ].
      unfold phase_of; cbn [ui with_ui loading error].
      destruct (truthy_string (message_of o)); discriminate.
Qed.

(** C10: a search that fails, by a [success: false] response, a rejected
    call, an undecodable body or a [null] body, leaves the stored property
    list and answer text as they were; only the error and loading cells
    change. *)
Theorem failure_keeps_stored_result (w : World) (o : outcome) :
  failed o = true ->
  let s' := ui (after (searchProperties_settle o) w) in
  properties s' = properties (ui w) /\
  aiResponse s' = aiResponse (ui w) /\
  searchQuery s' = searchQuery (ui w) /\
  loading s' = false /\
  error s' = Some (message_of o).
Proof.
  intros Hf s'. subst s'. unfold after.
  rewrite (settle_failed _ _ Hf). repeat split.
Qed.

Lemma failure_keeps_stored_result_witness :
  failed (Decoded failure_payload) = true /\
  let s' := ui (after (searchProperties_settle (Decoded failure_payload))
                      first_search_done) in
  properties s' = JArr [listing "p1"] /\
  aiResponse s' = JStr (lit "Found 1 home") /\
  searchQuery s' = q_one /\
  loading s' = false /\
  error s' = Some msg_failed.
Proof.
  split; [ reflexivity | ].
  exact (failure_keeps_stored_result first_search_done
           (Decoded failure_payload) eq_refl).
Defined.

(** ** The calls a run of events issues *)

Lemma settle_shape (w : World) (o : outcome) :
  exists s',
    searchProperties_settle o w = (Normal tt, with_ui w s') /\
    loading s' = false /\
    searchQuery s' = searchQuery (ui w).
Proof.
  destruct (succeeds o) eqn:Hs.
  - destruct o as [ | | d ]; try discriminate.
    rewrite (settle_succeeds _ _ Hs). eexists. repeat split.
  - rewrite settle_failed by (unfold failed; rewrite Hs; reflexivity).
    eexists. repeat split.
Qed.

Lemma after_handleSearch (w : World) :
  truthy_string (searchQuery (ui w)) = true ->
  after handleSearch w =
  mkWorld (mkState (searchQuery (ui w)) (properties (ui w)) true None
                   (aiResponse (ui w)))
          (requests w ++ [mkRequest (searchQuery (ui w)) 5])
          (inflight w ++ [List.length (requests w)])
          (navigated (searchQuery (ui w)) (navigations w)).
Proof.
  intros Hq. unfold after, handleSearch. rewrite Hq.
  unfold bind. rewrite call_spec. unfold navigate, navigated.
  destruct (isWellFormed (searchQuery (ui w))); reflexivity.
Qed.

Lemma after_handleSearch_empty (w : World) :
  truthy_string (searchQuery (ui w)) = false -> after handleSearch w = w.
Proof. intros Hq. unfold after, handleSearch. rewrite Hq. reflexivity. Qed.

Lemma mount_with_query (q : jsstring) :
  truthy_string q = true ->
  mount (Some q) =
  mkWorld (mkState q (JArr []) true None (JStr [])) [mkRequest q 5] [0] [].
Proof.
  intros Hq. unfold mount, after, mountEffect, initial; cbn [ui searchQuery].
  rewrite !Hq. reflexivity.
Qed.

Lemma mount_without_query (q : option jsstring) :
  match q with Some s => truthy_string s | None => false end = false ->
  mount q = mkWorld (mkState [] (JArr []) false None (JStr [])) [] [] [].
Proof.
  intros Hq. unfold mount, after, mountEffect, initial; cbn [ui searchQuery].
  destruct q as [ s | ]; [ rewrite Hq | ]; reflexivity.
Qed.

Lemma submitted_nonempty (evs : list event) (box : jsstring) :
  Forall (fun q => truthy_string q = true) (submitted box evs).
Proof.
  revert box. induction evs as [ | ev evs IH ]; intros box; simpl.
  - constructor.
  - destruct ev as [ q | | n o ]; try apply IH.
    destruct (truthy_string box) eqn:Hb; [ constructor; [ exact Hb | ] | ];
      apply IH.
Qed.

Lemma step_issues_submitted (w w' : World) (ev : event) :
  step w ev = Some w' ->
  requests w' =
    requests w ++
    map (fun q => mkRequest q 5) (submitted (searchQuery (ui w)) [ev]) /\
  navigations w' =
    navigations w ++ filter isWellFormed (submitted (searchQuery (ui w)) [ev]) /\
  (forall evs,
      submitted (searchQuery (ui w)) (ev :: evs) =
      submitted (searchQuery (ui w)) [ev] ++ submitted (searchQuery (ui w')) evs).
Proof.
  intros Hstep. destruct ev as [ q | | n o ]; simpl in Hstep.
  - injection Hstep as <-. simpl. rewrite !app_nil_r. repeat split.
  - injection Hstep as <-. cbn [submitted].
    destruct (truthy_string (searchQuery (ui w))) eqn:Hq.
    + rewrite (after_handleSearch w Hq).
      cbn [ui requests navigations searchQuery map filter].
      unfold navigated.
      destruct (isWellFormed (searchQuery (ui w))); repeat split;
        rewrite app_nil_r; reflexivity.
    + rewrite (after_handleSearch_empty w Hq). simpl. rewrite !app_nil_r.
      repeat split.
  - destruct (is_inflight n w); [ | discriminate ].
    injection Hstep as <-. unfold after.
    destruct (settle_shape (retire n w) o) as [s' [-> [_ Hq]]].
    cbn [snd ui with_ui requests navigations retire submitted] in *.
    rewrite Hq, !app_nil_r. repeat split.
Qed.

(** X1: the remote calls of a run are exactly its accepted submissions.
    Each submission made while the search box is not empty issues one call
    carrying the text of the box at that moment with [top_k = 5]; typing,
    an ignored submission and the settling of a call (whatever its outcome)
    issue none, so nothing is retried.  The address changes once for each
    accepted submission whose text can be encoded. *)
Theorem calls_follow_submissions (evs : list event) (w w' : World) :
  run evs w = Some w' ->
  requests w' =
    requests w ++
    map (fun q => mkRequest q 5) (submitted (searchQuery (ui w)) evs) /\
  navigations w' =
    navigations w ++ filter isWellFormed (submitted (searchQuery (ui w)) evs).
Proof.
  revert w. induction evs as [ | ev evs IH ]; intros w Hrun; simpl in Hrun.
  - injection Hrun as <-. simpl. rewrite !app_nil_r. split; reflexivity.
  - destruct (step w ev) as [w1 | ] eqn:Hstep; [ | discriminate ].
    destruct (IH w1 Hrun) as [Hreq Hnav].
    destruct (step_issues_submitted w w1 ev Hstep) as [Hreq1 [Hnav1 Hsub]].
    rewrite Hreq, Hnav, Hreq1, Hnav1, (Hsub evs).
    rewrite map_app, filter_app, <- !app_assoc. split; reflexivity.
Qed.

Lemma calls_follow_submissions_witness :
  run (submit blank ++ [Settle 0 FetchRejected; Change []; Submit]
       ++ submit q_one ++ [Settle 1 (Decoded payload_one)])
      (mount None) =
  Some after_blank_then_search /\
  requests after_blank_then_search =
    requests (mount None) ++
    map (fun q => mkRequest q 5)
        (submitted (searchQuery (ui (mount None)))
           (submit blank ++ [Settle 0 FetchRejected; Change []; Submit]
            ++ submit q_one ++ [Settle 1 (Decoded payload_one)])) /\
  navigations after_blank_then_search =
    navigations (mount None) ++
    filter isWellFormed
        (submitted (searchQuery (ui (mount None)))
           (submit blank ++ [Settle 0 FetchRejected; Change []; Submit]
            ++ submit q_one ++ [Settle 1 (Decoded payload_one)])).
Proof.
  assert (Hrun :
    run (submit blank ++ [Settle 0 FetchRejected; Change []; Submit]
         ++ submit q_one ++ [Settle 1 (Decoded payload_one)])
        (mount None) = Some after_blank_then_search)
    by (vm_compute; reflexivity).
  split; [ exact Hrun | ].
  exact (calls_follow_submissions _ _ _ Hrun).
Defined.

Lemma requests_nonempty_run (evs : list event) (w w' : World) :
  Forall (fun r => truthy_string (query r) = true /\ top_k r = 5%Z)
         (requests w) ->
  run evs w = Some w' ->
  Forall (fun r => truthy_string (query r) = true /\ top_k r = 5%Z)
         (requests w').
Proof.
  revert w. induction evs as [ | ev evs IH ]; intros w Hw Hrun; simpl in Hrun.
  - injection Hrun as <-. exact Hw.
  - destruct (step w ev) as [w1 | ] eqn:Hstep; [ | discriminate ].
    apply (IH w1); [ | exact Hrun ].
    destruct (step_issues_submitted w w1 ev Hstep) as [-> _].
    apply Forall_app. split; [ exact Hw | ].
    apply Forall_map.
    eapply Forall_impl; [ | apply submitted_nonempty ].
    intros a Ha. split; [ exact Ha | reflexivity ].
Qed.

(** X2: every remote call the page has ever issued, from the mount effect
    or from a submission, carries a non-empty query and [top_k = 5]. *)
Theorem issued_calls_carry_nonempty_query (w : World) :
  reachable w ->
  Forall (fun r => truthy_string (query r) = true /\ top_k r = 5%Z)
         (requests w).
Proof.
  intros [q [evs Hrun]].
  apply (requests_nonempty_run evs (mount q)); [ | exact Hrun ].
  destruct (match q with Some s => truthy_string s | None => false end)
    eqn:Hq.
  - destruct q as [ s | ]; [ | discriminate ].
    rewrite (mount_with_query s Hq). repeat constructor. exact Hq.
  - rewrite (mount_without_query q Hq). constructor.
Qed.

Lemma issued_calls_carry_nonempty_query_witness :
  reachable two_in_flight /\
  Forall (fun r => truthy_string (query r) = true /\ top_k r = 5%Z)
         (requests two_in_flight).
Proof.
  assert (Hr : reachable two_in_flight).
  { exists None, (submit q_one ++ submit q_two). reflexivity. }
  split; [ exact Hr | ].
  exact (issued_calls_carry_nonempty_query two_in_flight Hr).
Defined.

(** ** The loading flag and the attempts in flight *)

Lemma bookkeeping_mount (q : option jsstring) : bookkeeping (mount q).
Proof.
  destruct (match q with Some s => truthy_string s | None => false end) eqn:Hq.
  - destruct q as [ s | ]; [ | discriminate ].
    rewrite (mount_with_query s Hq). unfold bookkeeping; simpl.
    repeat split.
    + intros n [<- | []]. lia.
    + repeat constructor. intros [].
    + discriminate.
  - rewrite (mount_without_query q Hq). unfold bookkeeping; simpl.
    repeat split.
    + intros n [].
    + constructor.
    + discriminate.
Qed.

Lemma bookkeeping_step (w w' : World) (ev : event) :
  bookkeeping w -> step w ev = Some w' -> bookkeeping w'.
Proof.
  intros [Hlt [Hnd Hld]] Hstep.
  destruct ev as [ q | | n o ]; simpl in Hstep.
  - injection Hstep as <-. repeat split; assumption.
  - injection Hstep as <-.
    destruct (truthy_string (searchQuery (ui w))) eqn:Hq.
    + rewrite (after_handleSearch w Hq). unfold bookkeeping; simpl.
      repeat split.
      * intros n Hin. rewrite length_app; simpl.
        apply in_app_or in Hin. destruct Hin as [Hin | [<- | []]].
        -- specialize (Hlt n Hin). lia.
        -- lia.
      * apply NoDup_app; [ exact Hnd | repeat constructor; intros [] | ].
        intros a Ha [<- | []]. specialize (Hlt _ Ha). lia.
      * intros _ Hnil. apply app_eq_nil in Hnil. destruct Hnil as [_ Hnil].
        discriminate Hnil.
    + rewrite (after_handleSearch_empty w Hq). repeat split; assumption.
  - destruct (is_inflight n w); [ | discriminate ].
    injection Hstep as <-. unfold after.
    destruct (settle_shape (retire n w) o) as [s' [-> [Hl _]]].
    unfold bookkeeping; cbn [snd ui with_ui requests inflight retire].
    repeat split.
    + intros m Hin. apply filter_In in Hin. apply Hlt. apply Hin.
    + apply NoDup_filter. exact Hnd.
    + rewrite Hl. discriminate.
Qed.

Lemma bookkeeping_run (evs : list event) (w w' : World) :
  bookkeeping w -> run evs w = Some w' -> bookkeeping w'.
Proof.
  revert w. induction evs as [ | ev evs IH ]; intros w Hw Hrun; simpl in Hrun.
  - injection Hrun as <-. exact Hw.
  - destruct (step w ev) as [w1 | ] eqn:Hstep; [ | discriminate ].
    apply (IH w1); [ | exact Hrun ].
    apply (bookkeeping_step w w1 ev); assumption.
Qed.

(** X3: the loading notice is shown only while a remote call is
    outstanding: in every reachable state with the loading flag up, some
    issued call has not settled yet. *)
Theorem loading_only_while_in_flight (w : World) :
  reachable w ->
  phase_of (ui w) = Loading ->
  exists n, is_inflight n w = true /\ n < List.length (requests w).
Proof.
  intros [q [evs Hrun]] Hphase.
  destruct (bookkeeping_run evs (mount q) w (bookkeeping_mount q) Hrun)
    as [Hlt [_ Hld]].
  assert (Hl : loading (ui w) = true).
  { unfold phase_of in Hphase. destruct (loading (ui w)); [ reflexivity | ].
    destruct (error (ui w)) as [ e | ];
      [ destruct (truthy_string e) | ]; discriminate. }
  specialize (Hld Hl).
  destruct (inflight w) as [ | n rest ] eqn:Hin; [ elim Hld; reflexivity | ].
  exists n. split.
  - unfold is_inflight. rewrite Hin. simpl. rewrite Nat.eqb_refl. reflexivity.
  - apply Hlt. left. reflexivity.
Qed.

Lemma loading_only_while_in_flight_witness :
  reachable two_in_flight /\
  phase_of (ui two_in_flight) = Loading /\
  exists n,
    is_inflight n two_in_flight = true /\
    n < List.length (requests two_in_flight).
Proof.
  assert (Hr : reachable two_in_flight).
  { exists None, (submit q_one ++ submit q_two). reflexivity. }
  split; [ exact Hr | split; [ reflexivity | ] ].
  exact (loading_only_while_in_flight two_in_flight Hr eq_refl).
Defined.

(** ** What the result cells can hold *)

Lemma step_cells (w w' : World) (ev : event) :
  step w ev = Some w' ->
  (properties (ui w') = properties (ui w) /\
   aiResponse (ui w') = aiResponse (ui w)) \/
  (exists n d,
      ev = Settle n (Decoded d) /\ succeeds (Decoded d) = true /\
      properties (ui w') = records_of d /\ aiResponse (ui w') = answer_of d).
Proof.
  intros Hstep. destruct ev as [ q | | n o ]; simpl in Hstep.
  - injection Hstep as <-. left. split; reflexivity.
  - injection Hstep as <-. left.
    destruct (truthy_string (searchQuery (ui w))) eqn:Hq.
    + rewrite (after_handleSearch w Hq). split; reflexivity.
    + rewrite (after_handleSearch_empty w Hq). split; reflexivity.
  - destruct (is_inflight n w); [ | discriminate ].
    injection Hstep as <-. unfold after.
    destruct (succeeds o) eqn:Hs.
    + destruct o as [ | | d ]; try discriminate.
      right. exists n, d. rewrite (settle_succeeds _ _ Hs). repeat split.
      exact Hs.
    + left. rewrite settle_failed by (unfold failed; rewrite Hs; reflexivity).
      split; reflexivity.
Qed.

Lemma or_else_truthy (v : option json) (d : json) :
  truthy d = true -> truthy (or_else v d) = true.
Proof.
  intros Hd. destruct v as [ v' | ]; simpl; [ | exact Hd ].
  destruct (truthy v') eqn:Hv; assumption.
Qed.

Lemma or_else_default_or_truthy (v : option json) (d : json) :
  or_else v d = d \/ truthy (or_else v d) = true.
Proof.
  destruct v as [ v' | ]; simpl; [ | left; reflexivity ].
  destruct (truthy v') eqn:Hv; [ right; exact Hv | left; reflexivity ].
Qed.

Lemma records_of_truthy (d : json) : truthy (records_of d) = true.
Proof.
  unfold records_of. destruct (get d (lit "properties")); [ | reflexivity ].
  apply or_else_truthy. reflexivity.
Qed.

Lemma answer_of_default_or_truthy (d : json) :
  answer_of d = JStr [] \/ truthy (answer_of d) = true.
Proof.
  unfold answer_of. destruct (get d (lit "response")); [ | left; reflexivity ].
  apply or_else_default_or_truthy.
Qed.

Lemma cells_defined_run (evs : list event) (w w' : World) :
  cells_defined (ui w) -> run evs w = Some w' -> cells_defined (ui w').
Proof.
  revert w. induction evs as [ | ev evs IH ]; intros w Hw Hrun; simpl in Hrun.
  - injection Hrun as <-. exact Hw.
  - destruct (step w ev) as [w1 | ] eqn:Hstep; [ | discriminate ].
    apply (IH w1); [ | exact Hrun ].
    destruct (step_cells w w1 ev Hstep)
      as [[Hp Ha] | [n [d [_ [_ [Hp Ha]]]]]];
      unfold cells_defined; rewrite Hp, Ha.
    + exact Hw.
    + split; [ apply records_of_truthy | apply answer_of_default_or_truthy ].
Qed.

Lemma cells_defined_mount (q : option jsstring) : cells_defined (ui (mount q)).
Proof.
  destruct (match q with Some s => truthy_string s | None => false end) eqn:Hq.
  - destruct q as [ s | ]; [ | discriminate ].
    rewrite (mount_with_query s Hq). split; [ reflexivity | left; reflexivity ].
  - rewrite (mount_without_query q Hq).
    split; [ reflexivity | left; reflexivity ].
Qed.

(** X4: whatever the service answers, the property cell never holds
    [null], [false], [0] or the empty string (so reading its [length] never
    fails on [null]), and the answer cell holds either the empty string or
    a truthy value: the defaults [|| []] and [|| ''] replace every falsy
    member of a response. *)
Theorem result_cells_are_never_falsy (w : World) :
  reachable w ->
  truthy (properties (ui w)) = true /\
  properties (ui w) <> JNull /\
  (aiResponse (ui w) = JStr [] \/ truthy (aiResponse (ui w)) = true).
Proof.
  intros [q [evs Hrun]].
  destruct (cells_defined_run evs (mount q) w (cells_defined_mount q) Hrun)
    as [Hp Ha].
  repeat split; [ exact Hp | | exact Ha ].
  intros Hnull. rewrite Hnull in Hp. discriminate Hp.
Qed.

Lemma result_cells_are_never_falsy_witness :
  reachable first_search_done /\
  truthy (properties (ui first_search_done)) = true /\
  properties (ui first_search_done) <> JNull /\
  (aiResponse (ui first_search_done) = JStr [] \/
   truthy (aiResponse (ui first_search_done)) = true).
Proof.
  assert (Hr : reachable first_search_done).
  { exists None, (submit q_one ++ [Settle 0 (Decoded payload_one)]).
    reflexivity. }
  split; [ exact Hr | ].
  exact (result_cells_are_never_falsy first_search_done Hr).
Defined.

Lemma contract_run (evs : list event) (w w' : World) :
  forallb keeps_contract evs = true ->
  Render.is_array (properties (ui w)) = true ->
  Render.is_string (aiResponse (ui w)) = true ->
  run evs w = Some w' ->
  Render.is_array (properties (ui w')) = true /\
  Render.is_string (aiResponse (ui w')) = true.
Proof.
  revert w. induction evs as [ | ev evs IH ]; intros w Hc Hp Ha Hrun;
    simpl in Hrun.
  - injection Hrun as <-. split; assumption.
  - destruct (step w ev) as [w1 | ] eqn:Hstep; [ | discriminate ].
    simpl in Hc. apply andb_true_iff in Hc. destruct Hc as [Hev Hc].
    destruct (step_cells w w1 ev Hstep)
      as [[Hp1 Ha1] | [n [d [-> [Hs [Hp1 Ha1]]]]]].
    + apply (IH w1 Hc); [ rewrite Hp1 | rewrite Ha1 | ]; assumption.
    + unfold keeps_contract in Hev. rewrite Hs in Hev.
      apply andb_true_iff in Hev. destruct Hev as [Hev1 Hev2].
      apply (IH w1 Hc); [ rewrite Hp1 | rewrite Ha1 | ]; assumption.
Qed.

(** X5: as long as every successful response has a list (or nothing) as
    [properties] and a string (or nothing) as [response], the property
    cell always holds a list and the answer cell always holds a string,
    whatever else happens (failures, overlapping searches, ignored
    submissions). *)
Theorem cells_keep_their_types
    (q : option jsstring) (evs : list event) (w : World) :
  forallb keeps_contract evs = true ->
  run evs (mount q) = Some w ->
  (exists l, properties (ui w) = JArr l) /\
  (exists a, aiResponse (ui w) = JStr a).
Proof.
  intros Hc Hrun.
  assert (H0 : Render.is_array (properties (ui (mount q))) = true /\
               Render.is_string (aiResponse (ui (mount q))) = true).
  { destruct (match q with Some s => truthy_string s | None => false end)
      eqn:Hq.
    - destruct q as [ s | ]; [ | discriminate ].
      rewrite (mount_with_query s Hq). split; reflexivity.
    - rewrite (mount_without_query q Hq). split; reflexivity. }
  destruct H0 as [Hp0 Ha0].
  destruct (contract_run evs (mount q) w Hc Hp0 Ha0 Hrun) as [Hp Ha].
  split.
  - destruct (properties (ui w)); try discriminate. eexists. reflexivity.
  - destruct (aiResponse (ui w)); try discriminate. eexists. reflexivity.
Qed.

Lemma cells_keep_their_types_witness :
  forallb keeps_contract
    (submit q_one ++ submit q_two ++
     [Settle 1 (Decoded payload_two); Settle 0 (Decoded failure_payload)])
  = true /\
  run (submit q_one ++ submit q_two ++
       [Settle 1 (Decoded payload_two); Settle 0 (Decoded failure_payload)])
      (mount None) = Some overlap_settled /\
  (exists l, properties (ui overlap_settled) = JArr l) /\
  (exists a, aiResponse (ui overlap_settled) = JStr a).
Proof.
  assert (Hc :
    forallb keeps_contract
      (submit q_one ++ submit q_two ++
       [Settle 1 (Decoded payload_two); Settle 0 (Decoded failure_payload)])
    = true) by (vm_compute; reflexivity).
  assert (Hrun :
    run (submit q_one ++ submit q_two ++
         [Settle 1 (Decoded payload_two); Settle 0 (Decoded failure_payload)])
        (mount None) = Some overlap_settled) by (vm_compute; reflexivity).
  split; [ exact Hc | split; [ exact Hrun | ] ].
  exact (cells_keep_their_types None _ _ Hc Hrun).
Defined.

(** ** A failure that settles before a success *)

(** X6: a successful outcome does not clear the error of a failed one.
    When a failed call settles and then, with no new search started in
    between, another call settles successfully, the records and the answer
    of the success are stored but the page shows the error of the failure;
    only the start of a new search clears it. *)
Theorem earlier_failure_hides_later_success
    (w : World) (o : outcome) (d : json) (q : jsstring) :
  failed o = true -> succeeds (Decoded d) = true ->
  let w1 := after (searchProperties_settle (Decoded d))
                  (after (searchProperties_settle o) w) in
  phase_of (ui w1) = Error /\
  error (ui w1) = Some (message_of o) /\
  properties (ui w1) = records_of d /\
  aiResponse (ui w1) = answer_of d /\
  error (ui (after (searchProperties_call q) w1)) = None.
Proof.
  intros Ho Hd w1. subst w1. unfold after.
  rewrite (settle_failed _ _ Ho). cbn [snd].
  rewrite (settle_succeeds _ _ Hd). cbn [snd ui with_ui].
  unfold phase_of; cbn [loading error properties aiResponse].
  destruct (message_of_cases o) as [-> | ->]; repeat split.
Qed.

Lemma earlier_failure_hides_later_success_witness :
  failed FetchRejected = true /\
  succeeds (Decoded payload_two) = true /\
  let w1 := after (searchProperties_settle (Decoded payload_two))
                  (after (searchProperties_settle FetchRejected)
                         two_in_flight) in
  phase_of (ui w1) = Error /\
  error (ui w1) = Some (message_of FetchRejected) /\
  properties (ui w1) = records_of payload_two /\
  aiResponse (ui w1) = answer_of payload_two /\
  error (ui (after (searchProperties_call q_one) w1)) = None.
Proof.
  split; [ reflexivity | split; [ reflexivity | ] ].
  exact (earlier_failure_hides_later_success two_in_flight FetchRejected
           payload_two q_one eq_refl eq_refl).
Defined.

(** ** The main content of the search page *)

Import Render.

Lemma card_of_ok (p : json) :
  card_ok p = true -> exists c, card_of p = Normal c.
Proof.
  intros Hok. destruct p as [ | b | x | s | l | fields ];
    try discriminate; try (eexists; reflexivity).
  unfold card_ok in Hok. unfold card_of, formatPrice, keyOf. cbn [get cbind].
  destruct (converts (field (lit "price") fields)); [ | discriminate ].
  destruct (converts (field (lit "property_id") fields)); [ | discriminate ].
  destruct (field (lit "amenities") fields) as [ [ | b | x | s | l | fs ] | ];
    try discriminate; eexists; reflexivity.
Qed.

Lemma card_of_not_ok (p : json) :
  card_ok p = false -> card_of p = Throw TypeError.
Proof.
  intros Hok. destruct p as [ | b | x | s | l | fields ];
    try discriminate; try reflexivity.
  unfold card_ok in Hok. unfold card_of, formatPrice, keyOf. cbn [get cbind].
  destruct (converts (field (lit "price") fields)); [ | reflexivity ].
  destruct (converts (field (lit "property_id") fields));
    destruct (field (lit "amenities") fields) as [ [ | b | x | s | l | fs ] | ];
    try discriminate; reflexivity.
Qed.

Lemma cards_of_ok (l : list json) :
  forallb card_ok l = true ->
  exists cs, cards_of l = Normal cs /\
             Forall2 (fun p c => card_of p = Normal c) l cs.
Proof.
  induction l as [ | p l IH ]; intros Hok; simpl in *.
  - exists []. split; [ reflexivity | constructor ].
  - apply andb_true_iff in Hok. destruct Hok as [Hp Hl].
    destruct (card_of_ok p Hp) as [c Hc]. destruct (IH Hl) as [cs [Hcs HF]].
    exists (c :: cs). rewrite Hc, Hcs. split; [ reflexivity | ].
    constructor; assumption.
Qed.

Lemma cards_of_not_ok (l : list json) :
  forallb card_ok l = false -> cards_of l = Throw TypeError.
Proof.
  induction l as [ | p l IH ]; intros Hok; simpl in *; [ discriminate | ].
  destruct (card_ok p) eqn:Hp.
  - destruct (card_of_ok p Hp) as [c Hc]. rewrite Hc. cbn [cbind].
    rewrite (IH Hok). reflexivity.
  - rewrite (card_of_not_ok p Hp). reflexivity.
Qed.

Lemma results_spec (s : State) :
  if grid_ok (properties s)
  then exists cs, results s = Normal (ShowResults (aiResponse s)
                                        (List.length (records s)) cs) /\
                  Forall2 (fun p c => card_of p = Normal c) (records s) cs
  else results s = Throw TypeError.
Proof.
  unfold results, grid_ok, records.
  destruct (properties s) as [ | b | x | a | l | fields ]; try reflexivity.
  destruct (forallb card_ok l) eqn:Hok.
  - destruct (cards_of_ok l Hok) as [cs [Hcs HF]]. exists cs.
    rewrite Hcs. split; [ reflexivity | exact HF ].
  - rewrite (cards_of_not_ok l Hok). reflexivity.
Qed.

Lemma mainContent_results (s : State) :
  phase_of s = Results -> mainContent s = results s.
Proof.
  unfold phase_of, mainContent. destruct (loading s); [ discriminate | ].
  destruct (error s) as [ e | ]; [ | reflexivity ].
  destruct (truthy_string e); [ discriminate | reflexivity ].
Qed.

(** X7: building the main content fails exactly when the results are to be
    shown and the stored property list cannot be laid out as cards: it is
    not a list, or one of its records is [null], or one of its records has
    an [amenities] member that is neither a list nor [null], or a [price]
    or [property_id] member whose conversion to a primitive throws (an
    object with a [toString] member of its own, or a list holding one).
    The failure is always a [TypeError]; the loading notice and the error
    text are built whatever is stored. *)
Theorem main_content_fails_exactly_on_bad_grid (s : State) :
  (mainContent s = Throw TypeError <->
   phase_of s = Results /\ grid_ok (properties s) = false) /\
  (forall e, mainContent s = Throw e -> e = TypeError).
Proof.
  assert (Hother : phase_of s <> Results -> exists v, mainContent s = Normal v).
  { unfold phase_of, mainContent. destruct (loading s); [ eexists; reflexivity | ].
    destruct (error s) as [ e | ]; [ | intros H; elim H; reflexivity ].
    destruct (truthy_string e);
      [ eexists; reflexivity | intros H; elim H; reflexivity ]. }
  assert (Hdec : phase_of s = Results \/ phase_of s <> Results).
  { destruct (phase_of s); [ right | right | left ];
      try discriminate; reflexivity. }
  pose proof (results_spec s) as Hres.
  split; [ split | ].
  - intros Hthrow. destruct Hdec as [Hp | Hp].
    + split; [ exact Hp | ]. rewrite (mainContent_results s Hp) in Hthrow.
      destruct (grid_ok (properties s)); [ | reflexivity ].
      destruct Hres as [cs [Hres _]]. rewrite Hres in Hthrow. discriminate.
    + destruct (Hother Hp) as [v Hv]. rewrite Hv in Hthrow. discriminate.
  - intros [Hp Hgrid]. rewrite (mainContent_results s Hp).
    rewrite Hgrid in Hres. exact Hres.
  - intros e Hthrow. destruct Hdec as [Hp | Hp].
    + rewrite (mainContent_results s Hp) in Hthrow.
      destruct (grid_ok (properties s)).
      * destruct Hres as [cs [Hres _]]. rewrite Hres in Hthrow. discriminate.
      * rewrite Hres in Hthrow. injection Hthrow as <-. reflexivity.
    + destruct (Hother Hp) as [v Hv]. rewrite Hv in Hthrow. discriminate.
Qed.

(** X8: when the results are shown, the grid has one card for each stored
    record, built from the record at the same position, none dropped and
    none added; the count in the summary line is the number of cards, and
    the answer shown is the stored answer. *)
Theorem grid_follows_records
    (s : State) (a : json) (n : nat) (cs : list card) :
  mainContent s = Normal (ShowResults a n cs) ->
  a = aiResponse s /\
  n = List.length cs /\
  n = List.length (records s) /\
  Forall2 (fun p c => card_of p = Normal c) (records s) cs.
Proof.
  intros Hm.
  assert (Hp : phase_of s = Results).
  { unfold phase_of. unfold mainContent in Hm.
    destruct (loading s); [ discriminate | ].
    destruct (error s) as [ e | ]; [ | reflexivity ].
    destruct (truthy_string e); [ discriminate | reflexivity ]. }
  rewrite (mainContent_results s Hp) in Hm.
  pose proof (results_spec s) as Hres.
  destruct (grid_ok (properties s)); [ | rewrite Hres in Hm; discriminate ].
  destruct Hres as [cs' [Hres HF]]. rewrite Hres in Hm.
  injection Hm as <- <- <-.
  repeat split; [ | exact HF ].
  apply (Forall2_length HF).
Qed.

Lemma grid_follows_records_witness :
  mainContent (ui first_search_done) =
  Normal (ShowResults (JStr (lit "Found 1 home")) 1
            [mkCard (Some (JStr (lit "p1"))) (JStr placeholder) None None
                    None None None None None
                    (Some (JStr (lit "Carlton"))) None None [] None]) /\
  JStr (lit "Found 1 home") = aiResponse (ui first_search_done) /\
  1 = List.length
        [mkCard (Some (JStr (lit "p1"))) (JStr placeholder) None None
                None None None None None
                (Some (JStr (lit "Carlton"))) None None [] None] /\
  1 = List.length (records (ui first_search_done)) /\
  Forall2 (fun p c => card_of p = Normal c)
          (records (ui first_search_done))
          [mkCard (Some (JStr (lit "p1"))) (JStr placeholder) None None
                  None None None None None
                  (Some (JStr (lit "Carlton"))) None None [] None].
Proof.
  assert (Hm :
    mainContent (ui first_search_done) =
    Normal (ShowResults (JStr (lit "Found 1 home")) 1
              [mkCard (Some (JStr (lit "p1"))) (JStr placeholder) None None
                      None None None None None
                      (Some (JStr (lit "Carlton"))) None None [] None]))
    by (vm_compute; reflexivity).
  split; [ exact Hm | ].
  exact (grid_follows_records _ _ _ _ Hm).
Defined.

Lemma bad_price_or_key_breaks_the_card (fields : list (jsstring * json)) :
  converts (field (lit "price") fields) = false \/
  converts (field (lit "property_id") fields) = false ->
  card_of (JObj fields) = Throw TypeError.
Proof.
  intros H. apply card_of_not_ok. unfold card_ok.
  destruct H as [-> | ->]; [ reflexivity | ].
  rewrite andb_false_r. reflexivity.
Qed.

Example bad_price_breaks_the_grid :
  card_of listing_with_bad_price = Throw TypeError /\
  mainContent (mkState q_one (JArr [listing "p1"; listing_with_bad_price])
                       false None (JStr [])) = Throw TypeError.
Proof. split; vm_compute; reflexivity. Qed.

Lemma card_of_object (fields : list (jsstring * json)) (c : card) :
  card_of (JObj fields) = Normal c ->
  exists shown,
    amenity_chips (field (lit "amenities") fields) = Normal shown /\
    c = mkCard (field (lit "property_id") fields)
               (or_else (field (lit "images") fields) (JStr placeholder))
               (field (lit "street_address") fields)
               (field (lit "price") fields)
               (field (lit "bedrooms") fields)
               (field (lit "bathrooms") fields)
               (field (lit "floor_area") fields)
               (field (lit "property_type") fields)
               (field (lit "street_address") fields)
               (field (lit "suburb") fields)
               (field (lit "state") fields)
               (field (lit "postcode") fields)
               shown
               (amenity_badge (field (lit "amenities") fields)).
Proof.
  unfold card_of, formatPrice, keyOf. cbn [get cbind].
  destruct (converts (field (lit "price") fields));
    cbn [cbind]; [ | discriminate ].
  destruct (amenity_chips (field (lit "amenities") fields)) as [ shown | e ];
    cbn [cbind]; [ | discriminate ].
  destruct (converts (field (lit "property_id") fields));
    cbn [cbind]; intros H; [ | discriminate ].
  injection H as <-. exists shown. split; reflexivity.
Qed.

(** X9: a card shows at most two amenity labels, the first two of the
    record's list in their order, and the badge accounts for all the
    others: it appears exactly when the list has more than two labels, and
    the labels shown plus the number on the badge make the length of the
    list. *)
Theorem amenities_are_all_accounted_for
    (p : json) (c : card) (l : list json) :
  card_of p = Normal c ->
  get p (lit "amenities") = Normal (Some (JArr l)) ->
  chips c = firstn 2 l /\
  List.length (chips c) <= 2 /\
  List.length (chips c) + match more c with Some k => k | None => 0 end
    = List.length l /\
  (more c = None <-> List.length l <= 2) /\
  (forall k, more c = Some k -> 1 <= k).
Proof.
  intros Hc Hget.
  destruct p as [ | b | x | s | items | fields ]; try discriminate.
  cbn [get] in Hget. injection Hget as Ham.
  destruct (card_of_object fields c Hc) as [shown [Hshown ->]].
  rewrite Ham in *.
  assert (E : shown = firstn 2 l).
  { change (Normal (firstn 2 l) = Normal shown) in Hshown.
    injection Hshown as <-. reflexivity. }
  clear Hshown. pose proof (length_firstn 2 l) as Hlen.
  rewrite <- E in *. clear E.
  cbn [chips more amenity_badge].
  destruct (Nat.ltb_spec 2 (List.length l)) as [Hlt | Hle].
  - repeat split; try lia.
    + discriminate.
    + intros k Hk. injection Hk as <-. lia.
  - repeat split; try lia. intros k Hk. discriminate Hk.
Qed.

Lemma amenities_are_all_accounted_for_witness :
  card_of listing_with_amenities =
  Normal (mkCard (Some (JStr (lit "p7"))) (JStr placeholder) None None
                 None None None None None None None None
                 [JStr (lit "pool"); JStr (lit "garage")] (Some 2)) /\
  get listing_with_amenities (lit "amenities") =
  Normal (Some (JArr [JStr (lit "pool"); JStr (lit "garage");
                      JStr (lit "garden"); JStr (lit "gym")])) /\
  [JStr (lit "pool"); JStr (lit "garage")] =
    firstn 2 [JStr (lit "pool"); JStr (lit "garage");
              JStr (lit "garden"); JStr (lit "gym")] /\
  2 <= 2 /\
  2 + 2 = 4 /\
  (Some 2 = None <-> 4 <= 2) /\
  (forall k, Some 2 = Some k -> 1 <= k).
Proof.
  assert (Hc :
    card_of listing_with_amenities =
    Normal (mkCard (Some (JStr (lit "p7"))) (JStr placeholder) None None
                   None None None None None None None None
                   [JStr (lit "pool"); JStr (lit "garage")] (Some 2)))
    by (vm_compute; reflexivity).
  assert (Hg :
    get listing_with_amenities (lit "amenities") =
    Normal (Some (JArr [JStr (lit "pool"); JStr (lit "garage");
                        JStr (lit "garden"); JStr (lit "gym")])))
    by (vm_compute; reflexivity).
  split; [ exact Hc | split; [ exact Hg | ] ].
  exact (amenities_are_all_accounted_for _ _ _ Hc Hg).
Defined.

(** X10: a record that lacks fields still gets its card.  For an object
    with no [amenities] member whose [price] and [property_id] are each
    missing or convertible to a primitive (any string, number, boolean or
    [null], and any object or list without a [toString] member of its own
    inside), the card is built without failure, whatever else the record
    has or lacks: a missing field is shown as nothing, a missing or falsy
    [images] member is replaced by the placeholder picture, and there are
    no amenity labels and no badge.  A record with no member at all is
    such a record. *)
Theorem missing_fields_leave_a_card (fields : list (jsstring * json)) :
  field (lit "amenities") fields = None ->
  converts (field (lit "price") fields) = true ->
  converts (field (lit "property_id") fields) = true ->
  exists c,
    card_of (JObj fields) = Normal c /\
    key c = field (lit "property_id") fields /\
    price c = field (lit "price") fields /\
    (truthy_opt (field (lit "images") fields) = false ->
     image c = JStr placeholder) /\
    chips c = [] /\
    more c = None.
Proof.
  intros Ham Hprice Hid.
  assert (Hok : card_ok (JObj fields) = true).
  { unfold card_ok. rewrite Ham, Hprice, Hid. reflexivity. }
  destruct (card_of_ok _ Hok) as [c Hc]. exists c.
  split; [ exact Hc | ].
  destruct (card_of_object fields c Hc) as [shown [Hshown ->]].
  rewrite Ham in *. cbn [amenity_chips] in Hshown. injection Hshown as <-.
  cbn [key price image chips more amenity_badge].
  repeat split.
  intros Himg. destruct (field (lit "images") fields) as [ v | ];
    [ | reflexivity ].
  cbn [truthy_opt] in Himg. cbn [or_else]. rewrite Himg. reflexivity.
Qed.

Lemma missing_fields_leave_a_card_witness :
  field (lit "amenities") [] = None /\
  converts (field (lit "price") []) = true /\
  converts (field (lit "property_id") []) = true /\
  exists c,
    card_of (JObj []) = Normal c /\
    key c = field (lit "property_id") [] /\
    price c = field (lit "price") [] /\
    (truthy_opt (field (lit "images") []) = false ->
     image c = JStr placeholder) /\
    chips c = [] /\
    more c = None.
Proof.
  split; [ reflexivity | split; [ reflexivity | split; [ reflexivity | ] ] ].
  exact (missing_fields_leave_a_card [] eq_refl eq_refl eq_refl).
Defined.

(** X11: the search accepts a response the page cannot show.  When a
    successful response carries as [properties] a truthy value that is not
    a list (a string, a number, an object), the search completes without
    error and stores that value, and building the main content of the
    resulting state then fails with a [TypeError]. *)
Theorem stored_non_list_breaks_the_grid
    (w : World) (q : jsstring) (d v : json) :
  succeeds (Decoded d) = true ->
  get d (lit "properties") = Normal (Some v) ->
  truthy v = true ->
  is_array v = false ->
  let w1 := after (searchProperties_call q) w in
  exists w2,
    searchProperties_settle (Decoded d) w1 = (Normal tt, w2) /\
    properties (ui w2) = v /\
    phase_of (ui w2) = Results /\
    mainContent (ui w2) = Throw TypeError.
Proof.
  intros Hs Hget Hv Harr w1. subst w1. unfold after.
  rewrite call_spec. cbn [snd]. rewrite (settle_succeeds _ _ Hs).
  eexists. split; [ reflexivity | ].
  cbn [ui with_ui properties].
  assert (Hrec : records_of d = v).
  { unfold records_of. rewrite Hget. cbn [or_else]. rewrite Hv. reflexivity. }
  rewrite Hrec. split; [ reflexivity | ]. split; [ reflexivity | ].
  unfold mainContent, results; cbn [loading error properties].
  destruct v; try reflexivity. discriminate Harr.
Qed.

Lemma stored_non_list_breaks_the_grid_witness :
  succeeds (Decoded payload_with_bad_list) = true /\
  get payload_with_bad_list (lit "properties") =
    Normal (Some (JStr (lit "none"))) /\
  truthy (JStr (lit "none")) = true /\
  is_array (JStr (lit "none")) = false /\
  let w1 := after (searchProperties_call q_one) (mount None) in
  exists w2,
    searchProperties_settle (Decoded payload_with_bad_list) w1
      = (Normal tt, w2) /\
    properties (ui w2) = JStr (lit "none") /\
    phase_of (ui w2) = Results /\
    mainContent (ui w2) = Throw TypeError.
Proof.
  repeat (split; [ reflexivity | ]).
  exact (stored_non_list_breaks_the_grid (mount None) q_one
           payload_with_bad_list (JStr (lit "none"))
           eq_refl eq_refl eq_refl eq_refl).
Defined.

(** ** The two guards on submissions *)

Lemma trimStart_all (q : jsstring) :
  forallb is_whitespace q = true -> trimStart q = [].
Proof.
  induction q as [ | c q IH ]; intros H; simpl in *; [ reflexivity | ].
  apply andb_true_iff in H. destruct H as [Hc Hq].
  rewrite Hc. apply IH. exact Hq.
Qed.

Lemma trimStart_not_all (q : jsstring) :
  forallb is_whitespace q = false ->
  trimStart q <> [] /\ forallb is_whitespace (trimStart q) = false.
Proof.
  induction q as [ | c q IH ]; intros H; [ discriminate | ].
  cbn [trimStart]. cbn [forallb] in H.
  destruct (is_whitespace c) eqn:Hc.
  - apply IH. exact H.
  - split; [ discriminate | ]. cbn [forallb]. rewrite Hc. reflexivity.
Qed.

Lemma forallb_rev (f : N -> bool) (q : jsstring) :
  forallb f (rev q) = forallb f q.
Proof.
  induction q as [ | c q IH ]; [ reflexivity | ].
  cbn [rev]. rewrite forallb_app, IH. cbn [forallb].
  rewrite andb_true_r. apply andb_comm.
Qed.

Lemma trim_blank (q : jsstring) :
  truthy_string (trim q) = negb (forallb is_whitespace q).
Proof.
  unfold trim, trimEnd.
  destruct (forallb is_whitespace q) eqn:Hq.
  - rewrite (trimStart_all q Hq). reflexivity.
  - destruct (trimStart_not_all q Hq) as [_ Hs].
    rewrite <- forallb_rev in Hs.
    destruct (trimStart_not_all _ Hs) as [Hne _].
    destruct (trimStart (rev (trimStart q))) as [ | c r ] eqn:Ht;
      [ elim Hne; reflexivity | ].
    cbn [rev]. destruct (rev r); reflexivity.
Qed.

Lemma home_guard_on_query (q : jsstring) :
  AIHomeSearch.handleSearch (AIHomeSearch.mkState q) =
  if forallb is_whitespace q then Normal None
  else if isWellFormed q then Normal (Some q) else Throw URIError.
Proof.
  unfold AIHomeSearch.handleSearch. cbn [AIHomeSearch.searchQuery].
  rewrite trim_blank. destruct (forallb is_whitespace q); reflexivity.
Qed.

(** X12: the form of the home page ignores a query exactly when every
    code unit of it is white space (the empty query included).  Any other
    query is passed on as typed, with its leading and trailing white space,
    unless it holds a lone surrogate, in which case building the address
    throws a [URIError]. *)
Theorem home_guard_blocks_exactly_blank_queries (s : AIHomeSearch.State) :
  AIHomeSearch.handleSearch s =
  if forallb is_whitespace (AIHomeSearch.searchQuery s) then Normal None
  else if isWellFormed (AIHomeSearch.searchQuery s)
       then Normal (Some (AIHomeSearch.searchQuery s))
       else Throw URIError.
Proof.
  unfold AIHomeSearch.handleSearch. rewrite trim_blank.
  destruct (forallb is_whitespace (AIHomeSearch.searchQuery s)); reflexivity.
Qed.

Lemma app_one_neq {A : Type} (l : list A) (x : A) : l ++ [x] <> l.
Proof.
  intros H. apply (f_equal (@List.length A)) in H.
  rewrite length_app in H. simpl in H. lia.
Qed.

(** X13: the two forms disagree exactly on the queries that are not empty
    and consist of white space only: the home page ignores such a query,
    while the search page issues a remote call for it; on every other
    query they agree (both ignore the empty one, neither ignores one with a
    visible character). *)
Theorem guards_disagree_exactly_on_blank_queries (w : World) (q : jsstring) :
  (AIHomeSearch.handleSearch (AIHomeSearch.mkState q) = Normal None /\
   exists w', run (submit q) w = Some w' /\
              requests w' = requests w ++ [mkRequest q 5]) <->
  (q <> [] /\ forallb is_whitespace q = true).
Proof.
  rewrite home_guard_on_query.
  split.
  - intros [Hhome [w' [Hrun Hreq]]].
    split.
    + intros ->. cbn in Hrun. injection Hrun as <-.
      cbn [requests] in Hreq. symmetry in Hreq.
      exact (app_one_neq _ _ Hreq).
    + destruct (forallb is_whitespace q); [ reflexivity | ].
      destruct (isWellFormed q); discriminate Hhome.
  - intros [Hne Hws]. rewrite Hws. split; [ reflexivity | ].
    assert (Hq : truthy_string q = true).
    { destruct q; [ elim Hne; reflexivity | reflexivity ]. }
    rewrite (run_submit w q Hq). eexists. split; reflexivity.
Qed.

(** ** From the home page to the search page *)

(** X14: a query submitted on the home page that has a visible character
    and can be encoded opens the search page already loading, with exactly
    one remote call in flight; the call carries the query as typed, white
    space around it included, and [top_k = 5].  (The router is taken to
    hand back, as the [q] parameter, the query that was encoded.) *)
Theorem home_submission_starts_the_search (s : AIHomeSearch.State) :
  forallb is_whitespace (AIHomeSearch.searchQuery s) = false ->
  isWellFormed (AIHomeSearch.searchQuery s) = true ->
  exists w,
    App.home_submit s = Normal (App.Search w) /\
    searchQuery (ui w) = AIHomeSearch.searchQuery s /\
    requests w = [mkRequest (AIHomeSearch.searchQuery s) 5] /\
    inflight w = [0] /\
    mainContent (ui w) = Normal ShowLoading.
Proof.
  intros Hws Hwf. unfold App.home_submit, App.open_search.
  destruct s as [q]. cbn [AIHomeSearch.searchQuery] in *.
  rewrite home_guard_on_query, Hws, Hwf.
  assert (Hq : truthy_string q = true).
  { destruct q; [ discriminate Hws | reflexivity ]. }
  rewrite (mount_with_query q Hq). eexists. repeat split.
Qed.

Lemma home_submission_starts_the_search_witness :
  forallb is_whitespace
    (AIHomeSearch.searchQuery (AIHomeSearch.mkState (lit " homes in Victoria ")))
  = false /\
  isWellFormed
    (AIHomeSearch.searchQuery (AIHomeSearch.mkState (lit " homes in Victoria ")))
  = true /\
  exists w,
    App.home_submit (AIHomeSearch.mkState (lit " homes in Victoria ")) =
      Normal (App.Search w) /\
    searchQuery (ui w) =
      AIHomeSearch.searchQuery
        (AIHomeSearch.mkState (lit " homes in Victoria ")) /\
    requests w =
      [mkRequest (AIHomeSearch.searchQuery
                    (AIHomeSearch.mkState (lit " homes in Victoria "))) 5] /\
    inflight w = [0] /\
    mainContent (ui w) = Normal ShowLoading.
Proof.
  split; [ reflexivity | split; [ reflexivity | ] ].
  exact (home_submission_starts_the_search
           (AIHomeSearch.mkState (lit " homes in Victoria "))
           eq_refl eq_refl).
Defined.

(** X15: every quick-search button of the home page starts a search: a
    click opens the search page loading, with one remote call carrying the
    query of that button. *)
Theorem every_quick_search_starts_a_search
    (item : jsstring * jsstring) (s : AIHomeSearch.State) :
  In item AIHomeSearch.quickSearches ->
  exists w,
    App.home_quick item s = Normal (App.Search w) /\
    searchQuery (ui w) = snd item /\
    requests w = [mkRequest (snd item) 5] /\
    phase_of (ui w) = Loading.
Proof.
  intros Hin. unfold App.home_quick, App.open_search, AIHomeSearch.quickSearch.
  cbn [snd].
  assert (H : isWellFormed (snd item) = true /\ truthy_string (snd item) = true).
  { destruct Hin as [<- | [<- | []]]; split; reflexivity. }
  destruct H as [Hwf Hq]. rewrite Hwf, (mount_with_query _ Hq).
  eexists. repeat split.
Qed.

Lemma every_quick_search_starts_a_search_witness :
  In (lit "3BHK homes in Victoria", lit "3BHK homes in Victoria")
     AIHomeSearch.quickSearches /\
  exists w,
    App.home_quick (lit "3BHK homes in Victoria", lit "3BHK homes in Victoria")
                   AIHomeSearch.init = Normal (App.Search w) /\
    searchQuery (ui w) =
      snd (lit "3BHK homes in Victoria", lit "3BHK homes in Victoria") /\
    requests w =
      [mkRequest
         (snd (lit "3BHK homes in Victoria", lit "3BHK homes in Victoria")) 5] /\
    phase_of (ui w) = Loading.
Proof.
  assert (Hin : In (lit "3BHK homes in Victoria", lit "3BHK homes in Victoria")
                   AIHomeSearch.quickSearches) by (left; reflexivity).
  split; [ exact Hin | ].
  exact (every_quick_search_starts_a_search _ AIHomeSearch.init Hin).
Defined.

(** X16: opening the search page with no query in the address, or with an
    empty one, issues no remote call and shows the results branch straight
    away: an empty answer, a count of 0 and no card. *)
Theorem search_page_without_query_shows_empty_results (q : option jsstring) :
  match q with Some s => truthy_string s | None => false end = false ->
  requests (mount q) = [] /\
  inflight (mount q) = [] /\
  phase_of (ui (mount q)) = Results /\
  mainContent (ui (mount q)) = Normal (ShowResults (JStr []) 0 []).
Proof.
  intros Hq. rewrite (mount_without_query q Hq). repeat split.
Qed.

Lemma search_page_without_query_shows_empty_results_witness :
  match @None jsstring with Some s => truthy_string s | None => false end
  = false /\
  requests (mount None) = [] /\
  inflight (mount None) = [] /\
  phase_of (ui (mount None)) = Results /\
  mainContent (ui (mount None)) = Normal (ShowResults (JStr []) 0 []).
Proof.
  split; [ reflexivity | ].
  exact (search_page_without_query_shows_empty_results None eq_refl).
Defined.
